(** * SwitchLang: the keystroke buffer and word corrector of [main.py]

    A shallow embedding of the class [SwitchLang] of [src/main.py] and the
    properties of its key-event handler.

    - Python [str] values are sequences of Unicode code points; they are
      modelled as [list N], so that [len] is [length] and slicing is list
      slicing.  String literals of the source are written with [py "..."],
      which decodes the UTF-8 bytes of the literal.
    - The two mapping dictionaries are [gmap str str].
    - The handler mutates [self] and talks to the [keyboard] and [logging]
      modules; this is a state monad over the record [SwitchLang] that also
      collects the calls made to those modules, in order.
    - Functions of other modules ([keyboard.key_to_char], [json.load],
      [json.dump], [open]) are parameters.  The drawing of the tray icon
      and the main loop are not part of the model. *)

From Stdlib Require Import NArith List String Ascii Lia.
From stdpp Require Import base option list gmap.

Set Default Proof Using "Type".

(** ** Python strings *)

Module PyStr.

Definition char := N.
Definition str := list char.

(** UTF-8 decoding of the bytes of a source literal (well-formed input). *)
Fixpoint utf8_decode (bs : list N) : str :=
  match bs with
  | [] => []
  | b :: r =>
      if (b <? 128)%N then b :: utf8_decode r
      else if (b <? 224)%N then
        match r with
        | b1 :: r1 => ((b - 192) * 64 + (b1 - 128))%N :: utf8_decode r1
        | _ => []
        end
      else if (b <? 240)%N then
        match r with
        | b1 :: b2 :: r2 =>
            ((b - 224) * 4096 + (b1 - 128) * 64 + (b2 - 128))%N
              :: utf8_decode r2
        | _ => []
        end
      else
        match r with
        | b1 :: b2 :: b3 :: r3 =>
            ((b - 240) * 262144 + (b1 - 128) * 4096
             + (b2 - 128) * 64 + (b3 - 128))%N :: utf8_decode r3
        | _ => []
        end
  end.

Definition py (s : string) : str :=
  utf8_decode (map N_of_ascii (list_ascii_of_string s)).
Arguments py s%_string.

(** The empty string. *)
Definition empty_str : str := [].

(** [len(s)] *)
Definition len (s : str) : nat := length s.

(** Truth value of a string: [if s:] holds when [s] is not empty. *)
Definition truthy (s : str) : bool :=
  match s with
  | [] => false
  | _ :: _ => true
  end.

(** [ch.isspace()], the characters [str.strip()] removes when it is called
    without argument (CPython's [_PyUnicode_IsWhitespace]). *)
Definition isspace (c : char) : bool :=
  ((9 <=? c) && (c <=? 13) || (28 <=? c) && (c <=? 32)
   || (c =? 133) || (c =? 160) || (c =? 5760)
   || (8192 <=? c) && (c <=? 8202)
   || (c =? 8232) || (c =? 8233) || (c =? 8239) || (c =? 8287)
   || (c =? 12288))%N.

(** [s.lstrip()], [s.rstrip()] and [s.strip()] *)
Fixpoint lstrip (s : str) : str :=
  match s with
  | [] => []
  | c :: r => if isspace c then lstrip r else s
  end.

Definition rstrip (s : str) : str := rev (lstrip (rev s)).

Definition strip (s : str) : str := rstrip (lstrip s).

(** [s[:-1]] *)
Definition drop_last (s : str) : str := removelast s.

End PyStr.
Export PyStr.

(** ** The state of a [SwitchLang] object and the calls it makes *)

Abbreviation table := (gmap str str).

Record SwitchLang := mkSwitchLang {
  buffer : str;
  is_running : bool;
  word_mappings : table;
  thai_to_eng_mappings : table;
  eng_to_thai_mappings : table;
  recent_words : list str
}.

(** Calls into the [keyboard] module and the logger, as the handler makes
    them. *)
Inductive effect :=
  | press_and_release (key : str)
  | write (text : str)
  | tray_icon_stop
  | log_info (msg : str)
  | log_error (msg : str).

(** State of [self] threaded through a method, with the calls it made. *)
Definition M (A : Type) : Type := SwitchLang → A * SwitchLang * list effect.

#[global] Instance M_ret : MRet M := λ A x s, (x, s, []).
#[global] Instance M_bind : MBind M := λ A B f m s,
  let '(a, s1, t1) := m s in
  let '(b, s2, t2) := f a s1 in
  (b, s2, t1 ++ t2).

Definition self : M SwitchLang := λ s, (s, s, []).
Definition emit (e : effect) : M unit := λ s, (tt, s, [e]).
Definition pass : M unit := mret tt.

(** Assignments to the attributes of [self]. *)
Definition with_buffer (b : str) (s : SwitchLang) : SwitchLang :=
  mkSwitchLang b (is_running s) (word_mappings s)
    (thai_to_eng_mappings s) (eng_to_thai_mappings s) (recent_words s).

Definition with_is_running (r : bool) (s : SwitchLang) : SwitchLang :=
  mkSwitchLang (buffer s) r (word_mappings s)
    (thai_to_eng_mappings s) (eng_to_thai_mappings s) (recent_words s).

Definition with_recent_words (l : list str) (s : SwitchLang) : SwitchLang :=
  mkSwitchLang (buffer s) (is_running s) (word_mappings s)
    (thai_to_eng_mappings s) (eng_to_thai_mappings s) l.

Definition set_buffer (b : str) : M unit := λ s, (tt, with_buffer b s, []).
Definition set_is_running (r : bool) : M unit :=
  λ s, (tt, with_is_running r s, []).
Definition set_recent_words (l : list str) : M unit :=
  λ s, (tt, with_recent_words l s, []).

(** [for _ in range(n): body] *)
Fixpoint for_range (n : nat) (body : M unit) : M unit :=
  match n with
  | O => pass
  | S k => body ;; for_range k body
  end.

(** The state and the calls of a method run. *)
Definition state_of {A} (r : A * SwitchLang * list effect) : SwitchLang :=
  snd (fst r).
Definition calls_of {A} (r : A * SwitchLang * list effect) : list effect :=
  snd r.

(** ** The corrector *)

(** [apply_correction(self, wrong_word, correct_word)] *)
Definition apply_correction (wrong_word correct_word : str) : M unit :=
  for_range (len wrong_word + 1) (emit (press_and_release (py "backspace")));;
  emit (write (correct_word ++ py " "));;
  set_buffer empty_str.

(** The message of [logger.info(f"Corrected: '{..}' to '{..}'")]. *)
Definition corrected_msg (current_word corrected_word : str) : str :=
  py "Corrected: '" ++ current_word ++ py "' to '" ++ corrected_word ++ py "'".

(** [check_and_correct_word(self)] *)
Definition check_and_correct_word : M unit :=
  s ← self;
  let current_word := strip (buffer s) in
  if negb (truthy current_word) then pass
  else
    match thai_to_eng_mappings s !! current_word with
    | Some corrected_word =>
        apply_correction current_word corrected_word;;
        emit (log_info (corrected_msg current_word corrected_word))
    | None =>
        match eng_to_thai_mappings s !! current_word with
        | Some corrected_word =>
            apply_correction current_word corrected_word;;
            emit (log_info (corrected_msg current_word corrected_word))
        | None =>
            set_recent_words (recent_words s ++ [current_word]);;
            s' ← self;
            if bool_decide (20 < length (recent_words s'))
            then set_recent_words (tail (recent_words s'))
            else pass
        end
    end.

(** ** Key events *)

Inductive event_kind := KEY_DOWN | KEY_UP.

(** [kind == keyboard.KEY_DOWN] *)
Definition is_key_down (kind : event_kind) : bool :=
  match kind with
  | KEY_DOWN => true
  | KEY_UP => false
  end.

(** A [keyboard.KeyboardEvent]; [scan_code] is [None] when the event has no
    such attribute. *)
Record KeyboardEvent := mkEvent {
  event_type : event_kind;
  name : str;
  scan_code : option N
}.

Definition modifiers : list str := [py "shift"; py "ctrl"; py "alt"].

Section Handler.

(** [keyboard.key_to_char(scan_code, False)], a function of the [keyboard]
    module: it returns a string or [None]. *)
Variable key_to_char : N → bool → option str.

(** [on_key_event(self, event)] *)
Definition on_key_event (event : KeyboardEvent) : M unit :=
  s ← self;
  if negb (is_running s) then pass
  else if is_key_down (event_type event) then
    if bool_decide (name event = py "space") then
      (if truthy (buffer s) then check_and_correct_word else pass);;
      s ← self;
      set_buffer (buffer s ++ py " ")
    else if bool_decide (name event = py "enter") then
      set_buffer empty_str
    else if bool_decide (name event = py "backspace") then
      if truthy (buffer s) then set_buffer (drop_last (buffer s)) else pass
    else if bool_decide (len (name event) = 1)
            || bool_decide (name event ∈ modifiers) then
      if negb (bool_decide (name event ∈ modifiers))
      then set_buffer (buffer s ++ name event)
      else pass
    else
      match scan_code event with
      | Some code =>
          match key_to_char code false with
          | Some char =>
              if truthy char && bool_decide (len char = 1)
              then set_buffer (buffer s ++ char)
              else pass
          | None => pass
          end
      | None => pass
      end
  else pass.

(** The handler is the only consumer of the events: they are processed one
    after the other. *)
Fixpoint on_key_events (events : list KeyboardEvent) : M unit :=
  match events with
  | [] => pass
  | e :: rest => on_key_event e;; on_key_events rest
  end.

End Handler.

(** ** Start-up and shutdown *)

(** [exit_app(self)]; the tray icon exists once [__init__] has run. *)
Definition exit_app : M unit :=
  set_is_running false;;
  emit tray_icon_stop;;
  emit (log_info (py "Application shutting down")).

(** The text [str(e)] of an exception. *)
Definition Exception := str.

(** The directory of the script: the content of each file by name. *)
Abbreviation FileSystem := (gmap str (list N)).

Definition thai_to_eng_defaults : table :=
  <[py "l;ylfu8iy[" := py "สวัสดีครับ"]> (<[py "wxwso,k" := py "ไปไหนมา"]> ∅).

(** The attributes [__init__] sets, for the two dictionaries it loaded. *)
Definition started (thai_to_eng eng_to_thai : table) : SwitchLang :=
  mkSwitchLang empty_str true thai_to_eng_defaults thai_to_eng eng_to_thai [].

Section Files.

(** [json.load] on the bytes of a file opened with [encoding='utf-8']: the
    dictionary, or the exception raised by decoding or parsing. *)
Variable json_load : list N → Exception + table.

(** The bytes [json.dump(.., ensure_ascii=False, indent=4)] writes. *)
Variable json_dump : table → list N.

(** [open(file_path, 'w', ..)] may raise. *)
Variable open_w_raises : str → option Exception.

(** [load_mappings(self, filename)]: the dictionary returned, the files
    afterwards and the log calls. *)
Definition load_mappings (fs : FileSystem) (filename : str)
  : table * FileSystem * list effect :=
  match fs !! filename with
  | Some data =>
      match json_load data with
      | inr mappings => (mappings, fs, [])
      | inl e =>
          (∅, fs,
           [log_error (py "Failed to load mappings from " ++ filename
                       ++ py ": " ++ e)])
      end
  | None =>
      let info :=
        log_info (py "Mapping file " ++ filename
                  ++ py " not found, using default mappings") in
      let default_mappings :=
        if bool_decide (filename = py "thai_to_eng.json")
        then thai_to_eng_defaults else ∅ in
      match open_w_raises filename with
      | None =>
          (default_mappings, <[filename := json_dump default_mappings]> fs,
           [info])
      | Some e =>
          (default_mappings, fs,
           [info;
            log_error (py "Failed to create default mapping file "
                       ++ filename ++ py ": " ++ e)])
      end
  end.

(** [__init__(self)]: the new object, the files afterwards and the log
    calls.  The tray icon it builds holds no state of the corrector. *)
Definition SwitchLang_init (fs : FileSystem)
  : SwitchLang * FileSystem * list effect :=
  let '(thai_to_eng, fs1, calls1) := load_mappings fs (py "thai_to_eng.json") in
  let '(eng_to_thai, fs2, calls2) := load_mappings fs1 (py "eng_to_thai.json") in
  (started thai_to_eng eng_to_thai, fs2, calls1 ++ calls2).

End Files.

(** ** Saving the tables and the tray menu *)

Definition with_thai_to_eng_mappings (t : table) (s : SwitchLang)
  : SwitchLang :=
  mkSwitchLang (buffer s) (is_running s) (word_mappings s)
    t (eng_to_thai_mappings s) (recent_words s).

(** The message of [logger.error(f"Failed to save mappings: {e}")]. *)
Definition save_failed_msg (e : Exception) : str :=
  py "Failed to save mappings: " ++ e.

Section Saving.

Variable json_dump : table → list N.
Variable open_w_raises : str → option Exception.

(** [save_mappings(self)]: the files afterwards and the log calls.  The
    source names the two files by relative paths, so [fs] is the working
    directory here.  Both files are written in one [try]: when the second
    [open] raises, the first file has been written. *)
Definition save_mappings (fs : FileSystem) (s : SwitchLang)
  : FileSystem * list effect :=
  match open_w_raises (py "thai_to_eng.json") with
  | Some e => (fs, [log_error (save_failed_msg e)])
  | None =>
      let fs1 :=
        <[py "thai_to_eng.json" := json_dump (thai_to_eng_mappings s)]> fs in
      match open_w_raises (py "eng_to_thai.json") with
      | Some e => (fs1, [log_error (save_failed_msg e)])
      | None =>
          (<[py "eng_to_thai.json" := json_dump (eng_to_thai_mappings s)]> fs1,
           [log_info (py "Mappings saved successfully")])
      end
  end.

(** [show_add_mapping_dialog(self)]: the object and the files afterwards,
    and the log calls. *)
Definition show_add_mapping_dialog (fs : FileSystem) (s : SwitchLang)
  : SwitchLang * FileSystem * list effect :=
  let s1 :=
    with_thai_to_eng_mappings
      (<[py "vbiyd" := py "สบาย"]> (thai_to_eng_mappings s)) s in
  let '(fs1, calls) := save_mappings fs s1 in
  (s1, fs1,
   log_info (py "Add mapping dialog requested (placeholder)") :: calls).

End Saving.

(** A word that [check_and_correct_word] may record: not empty, no white
    space at either end, and a key of neither table of [s]. *)
Definition recordable (s : SwitchLang) (w : str) : Prop :=
  w ≠ [] ∧ strip w = w
  ∧ thai_to_eng_mappings s !! w = None
  ∧ eng_to_thai_mappings s !! w = None.


(** ** Typing a text *)

(** The key-down event of a key whose name is [n]. *)
Definition key_down (n : str) : KeyboardEvent := mkEvent KEY_DOWN n None.

(** One key-down event per character of [t], named by that character. *)
Definition typing (t : str) : list KeyboardEvent :=
  map (λ c, key_down [c]) t.

Definition space_key : KeyboardEvent := key_down (py "space").
Definition enter_key : KeyboardEvent := key_down (py "enter").
Definition backspace_key : KeyboardEvent := key_down (py "backspace").

(** [erase] presses of the backspace key. *)
Definition backspaces (erase : nat) : list effect :=
  replicate erase (press_and_release (py "backspace")).

(** The calls of one correction of the word [w] to [v], as
    [check_and_correct_word] makes them: the erasure, the replacement text
    and the log line. *)
Definition correction_calls (w v : str) : list effect :=
  backspaces (len w + 1) ++ [write (v ++ py " "); log_info (corrected_msg w v)].

(** [recent_words] after [w] is appended and the bound of 20 is applied. *)
Definition remembered (l : list str) (w : str) : list str :=
  if bool_decide (20 < length (l ++ [w])) then tail (l ++ [w]) else l ++ [w].

(** A buffer whose trimmed content is a word of neither table. *)
Definition unmatched (s : SwitchLang) (b : str) : Prop :=
  strip b ≠ [] ∧ thai_to_eng_mappings s !! strip b = None
  ∧ eng_to_thai_mappings s !! strip b = None.

(** The same, as a test. *)
Definition unmatchedb (s : SwitchLang) (b : str) : bool :=
  truthy (strip b)
  && match thai_to_eng_mappings s !! strip b with
     | Some _ => false
     | None =>
         match eng_to_thai_mappings s !! strip b with
         | Some _ => false
         | None => true
         end
     end.

(** Evaluating the buffers [bs] one after the other: each is put in
    [self.buffer] and [check_and_correct_word] is called. *)
Definition evaluate (s : SwitchLang) (b : str) : SwitchLang :=
  state_of (check_and_correct_word (with_buffer b s)).

Definition evaluate_all (bs : list str) (s : SwitchLang) : SwitchLang :=
  fold_left evaluate bs s.

(** ** A sample environment

    Used to run the model on concrete inputs: a keyboard that resolves no
    scan code, and a [json.load] that reads the text of an empty object and
    raises on anything else. *)

Definition no_key_to_char : N → bool → option str := λ _ _, None.

Definition sample_json_load (data : list N) : Exception + table :=
  if bool_decide (data = py "{}") then inr ∅
  else inl (py "Expecting value: line 1 column 1 (char 0)").

Definition sample_json_dump (mappings : table) : list N := py "{}".

Definition sample_open_w : str → option Exception := λ _, None.

(** A dump and a load that undo each other, through the numbering of the
    tables, and an [open] that raises for every file. *)
Definition codec_dump (mappings : table) : list N :=
  [Npos (encode mappings)].

Definition codec_load (data : list N) : Exception + table :=
  match data with
  | [Npos p] =>
      match decode p with
      | Some mappings => inr mappings
      | None => inl (py "Expecting value")
      end
  | _ => inl (py "Expecting value")
  end.

Definition read_only_open_w : str → option Exception :=
  λ _, Some (py "Permission denied").




(** ** Sample states

    [fresh] is the object at a first start, when no mapping file exists: the
    Thai-to-English table holds the two default entries and the other table
    is empty. *)

Definition fresh : SwitchLang := started thai_to_eng_defaults ∅.

(** A Thai-to-English table, as a file may hold it, with the empty string
    for a key. *)
Definition empty_key_state : SwitchLang :=
  started (<[empty_str := py "x"]> ∅) ∅.

(** [fresh] with a garbled word, or a plain one, or blanks in the buffer. *)
Definition typed_sawasdee : SwitchLang := with_buffer (py "l;ylfu8iy[") fresh.
Definition typed_abc : SwitchLang := with_buffer (py "abc") fresh.
Definition typed_blanks : SwitchLang := with_buffer (py "  ") fresh.

(** The same garbled word in the buffer, when the English-to-Thai table has
    an entry for it too. *)
Definition typed_in_both_tables : SwitchLang :=
  with_buffer (py "l;ylfu8iy[")
    (started thai_to_eng_defaults (<[py "l;ylfu8iy[" := py "hello"]> ∅)).

(** The object after the tray's Exit entry was used. *)
Definition stopped : SwitchLang := state_of (exit_app fresh).

(** Twenty-one buffers of one letter each, [a] to [u]. *)
Definition letters_a_to_u : list str :=
  map (λ c, [c]) (py "abcdefghijklmnopqrstu").

(** A directory whose Thai-to-English file is cut short. *)
Definition broken_files : FileSystem :=
  <[py "thai_to_eng.json" := py "{ l;ylfu8iy[: "]> ∅.

(** ** Checks of the string model *)

Example sawasdee_codepoints :
  py "สวัสดีครับ"
  = [3626; 3623; 3633; 3626; 3604; 3637; 3588; 3619; 3633; 3610]%N.
Proof. reflexivity. Qed.

Example strip_example : strip (py "  ab c ") = py "ab c".
Proof. reflexivity. Qed.

(** ** Stripping *)

Lemma lstrip_blank_Forall (s : str) : lstrip s = [] → Forall (λ c, isspace c = true) s.
Proof.
  induction s as [|c r IH]; simpl; [constructor|].
  destruct (isspace c) eqn:E; [|discriminate].
  intros H. constructor; auto.
Qed.

Lemma Forall_blank_lstrip (s : str) : Forall (λ c, isspace c = true) s → lstrip s = [].
Proof.
  induction 1 as [|c r Hc _ IH]; simpl; [reflexivity|].
  now rewrite Hc.
Qed.

Lemma lstrip_head (s : str) c r : lstrip s = c :: r → isspace c = false.
Proof.
  induction s as [|a s IH]; simpl; [discriminate|].
  destruct (isspace a) eqn:E; [exact IH|].
  intros [= -> _]. exact E.
Qed.

Lemma lstrip_idemp (s : str) : lstrip (lstrip s) = lstrip s.
Proof.
  destruct (lstrip s) as [|c r] eqn:E; [reflexivity|].
  simpl. now rewrite (lstrip_head _ _ _ E).
Qed.

Lemma strip_blank_lstrip (b : str) : strip b = [] → lstrip b = [].
Proof.
  unfold strip, rstrip. intros H.
  assert (H1 : lstrip (rev (lstrip b)) = []).
  { rewrite <- (rev_involutive (lstrip (rev (lstrip b)))). now rewrite H. }
  apply lstrip_blank_Forall, Forall_rev in H1. rewrite rev_involutive in H1.
  destruct (lstrip b) as [|c r] eqn:E; [reflexivity|].
  apply lstrip_head in E. inversion H1; congruence.
Qed.

Lemma lstrip_app_blank (b t : str) : lstrip b = [] → lstrip (b ++ t) = lstrip t.
Proof.
  induction b as [|c r IH]; simpl; [reflexivity|].
  destruct (isspace c); [exact IH|discriminate].
Qed.

(** A buffer that holds only white space does not change the word that is
    evaluated. *)
Lemma strip_app_blank (b t : str) : strip b = [] → strip (b ++ t) = strip t.
Proof.
  intros H. unfold strip.
  now rewrite (lstrip_app_blank _ _ (strip_blank_lstrip _ H)).
Qed.

Lemma truthy_true (s : str) : s ≠ [] → truthy s = true.
Proof. destruct s; [congruence|reflexivity]. Qed.

Lemma truthy_app_r (b t : str) : t ≠ [] → truthy (b ++ t) = true.
Proof. intros H. apply truthy_true. destruct b, t; simpl; congruence. Qed.

(** ** Running the methods *)

Ltac run :=
  unfold pass, self, emit, set_buffer, set_is_running, set_recent_words,
    mbind, mret, M_bind, M_ret;
  cbn beta iota zeta.

Lemma with_buffer_id s : with_buffer (buffer s) s = s.
Proof. now destruct s. Qed.

Lemma for_range_emit n e s : for_range n (emit e) s = (tt, s, replicate n e).
Proof.
  induction n as [|n IH]; [reflexivity|].
  cbn [for_range]. unfold mbind, M_bind. unfold emit at 1.
  cbn beta iota. now rewrite IH.
Qed.

Lemma apply_correction_run w c s :
  apply_correction w c s
  = (tt, with_buffer [] s, backspaces (len w + 1) ++ [write (c ++ py " ")]).
Proof.
  unfold apply_correction, mbind, M_bind. rewrite for_range_emit.
  unfold backspaces. reflexivity.
Qed.

Lemma check_blank s :
  strip (buffer s) = [] → check_and_correct_word s = (tt, s, []).
Proof. intros H. unfold check_and_correct_word. run. now rewrite H. Qed.

Lemma check_thai s w v :
  strip (buffer s) = w → w ≠ [] → thai_to_eng_mappings s !! w = Some v →
  check_and_correct_word s = (tt, with_buffer [] s, correction_calls w v).
Proof.
  intros Hw Hne HA. unfold check_and_correct_word. run.
  rewrite Hw, (truthy_true _ Hne), HA. cbn [negb]. cbn beta iota.
  rewrite apply_correction_run.
  unfold correction_calls. now rewrite <- app_assoc.
Qed.

Lemma check_eng s w v :
  strip (buffer s) = w → w ≠ [] → thai_to_eng_mappings s !! w = None →
  eng_to_thai_mappings s !! w = Some v →
  check_and_correct_word s = (tt, with_buffer [] s, correction_calls w v).
Proof.
  intros Hw Hne HA HB. unfold check_and_correct_word. run.
  rewrite Hw, (truthy_true _ Hne), HA, HB. cbn [negb]. cbn beta iota.
  rewrite apply_correction_run.
  unfold correction_calls. now rewrite <- app_assoc.
Qed.

Lemma check_none s w :
  strip (buffer s) = w → w ≠ [] → thai_to_eng_mappings s !! w = None →
  eng_to_thai_mappings s !! w = None →
  check_and_correct_word s
  = (tt, with_recent_words (remembered (recent_words s) w) s, []).
Proof.
  intros Hw Hne HA HB. unfold check_and_correct_word. run.
  rewrite Hw, (truthy_true _ Hne), HA, HB. cbn [negb]. cbn beta iota.
  unfold remembered. cbn [recent_words with_recent_words].
  now destruct (bool_decide _).
Qed.

(** ** The handler, key by key *)

Lemma name_of_length_1 (n k : str) : len n = 1 → length k ≠ 1 → n ≠ k.
Proof. unfold len. intros H1 H2 ->. contradiction. Qed.

Lemma length_1_not_modifier (n : str) : len n = 1 → n ∉ modifiers.
Proof.
  unfold len, modifiers. intros H1 H.
  repeat (apply elem_of_cons in H as [->|H]; [vm_compute in H1; discriminate|]).
  now apply elem_of_nil in H.
Qed.

Section HandlerFacts.

Variable key_to_char : N → bool → option str.

Lemma on_key_event_stopped e s :
  is_running s = false → on_key_event key_to_char e s = (tt, s, []).
Proof. intros H. unfold on_key_event. run. now rewrite H. Qed.

Lemma on_key_event_up e s :
  event_type e = KEY_UP → on_key_event key_to_char e s = (tt, s, []).
Proof.
  intros H. unfold on_key_event. run. rewrite H.
  now destruct (is_running s).
Qed.

Lemma on_key_event_space e s :
  is_running s = true → event_type e = KEY_DOWN → name e = py "space" →
  on_key_event key_to_char e s
  = let '(_, s1, calls) :=
      if truthy (buffer s) then check_and_correct_word s else (tt, s, []) in
    (tt, with_buffer (buffer s1 ++ py " ") s1, calls).
Proof.
  intros Hr Hd Hn. unfold on_key_event. run. rewrite Hr, Hd, Hn.
  cbn [negb is_key_down]. rewrite bool_decide_eq_true_2 by reflexivity.
  cbn beta iota.
  destruct (truthy (buffer s)).
  - destruct (check_and_correct_word s) as [[[] s1] c1].
    cbn beta iota. now rewrite app_nil_r.
  - reflexivity.
Qed.

Lemma on_key_event_enter e s :
  is_running s = true → event_type e = KEY_DOWN → name e = py "enter" →
  on_key_event key_to_char e s = (tt, with_buffer [] s, []).
Proof.
  intros Hr Hd Hn. unfold on_key_event. run. rewrite Hr, Hd, Hn.
  reflexivity.
Qed.

Lemma on_key_event_backspace e s :
  is_running s = true → event_type e = KEY_DOWN → name e = py "backspace" →
  on_key_event key_to_char e s
  = (tt, if truthy (buffer s) then with_buffer (drop_last (buffer s)) s else s,
     []).
Proof.
  intros Hr Hd Hn. unfold on_key_event. run. rewrite Hr, Hd, Hn.
  cbn [negb is_key_down].
  rewrite bool_decide_eq_false_2 by (vm_compute; discriminate).
  rewrite bool_decide_eq_false_2 by (vm_compute; discriminate).
  rewrite bool_decide_eq_true_2 by reflexivity.
  now destruct (truthy (buffer s)).
Qed.

Lemma on_key_event_char e s :
  is_running s = true → event_type e = KEY_DOWN → len (name e) = 1 →
  on_key_event key_to_char e s = (tt, with_buffer (buffer s ++ name e) s, []).
Proof.
  intros Hr Hd Hn. unfold on_key_event. run. rewrite Hr, Hd.
  cbn [negb is_key_down].
  rewrite !bool_decide_eq_false_2
    by (apply name_of_length_1; [exact Hn|vm_compute; discriminate]).
  rewrite (bool_decide_eq_true_2 _ Hn).
  rewrite (bool_decide_eq_false_2 _ (length_1_not_modifier _ Hn)).
  reflexivity.
Qed.

Lemma on_key_events_app l1 l2 s :
  on_key_events key_to_char (l1 ++ l2) s
  = let '(_, s1, c1) := on_key_events key_to_char l1 s in
    let '(_, s2, c2) := on_key_events key_to_char l2 s1 in
    (tt, s2, c1 ++ c2).
Proof.
  revert s. induction l1 as [|e l1 IH]; intros s.
  - simpl. run. now destruct (on_key_events key_to_char l2 s) as [[[] s2] c2].
  - cbn [app on_key_events]. unfold mbind, M_bind.
    destruct (on_key_event key_to_char e s) as [[[] s0] c0].
    rewrite IH.
    destruct (on_key_events key_to_char l1 s0) as [[[] s1] c1].
    destruct (on_key_events key_to_char l2 s1) as [[[] s2] c2].
    now rewrite app_assoc.
Qed.

(** Typing a text appends it to the buffer, and nothing else happens. *)
Lemma typing_run t s :
  is_running s = true →
  on_key_events key_to_char (typing t) s
  = (tt, with_buffer (buffer s ++ t) s, []).
Proof.
  revert s. induction t as [|c t IH]; intros s Hr.
  - simpl. rewrite app_nil_r, with_buffer_id. reflexivity.
  - cbn [typing map on_key_events]. unfold mbind, M_bind.
    rewrite on_key_event_char by (exact Hr || reflexivity).
    fold (typing t). rewrite IH by exact Hr.
    cbn [buffer with_buffer name key_down].
    rewrite <- app_assoc. reflexivity.
Qed.

End HandlerFacts.

(** ** Typing a word and a space *)

Lemma last_remembered (l : list str) (w : str) : last (remembered l w) = Some w.
Proof.
  unfold remembered. case_bool_decide as H; [|apply last_snoc].
  destruct l as [|a l]; [simpl in H; lia|].
  simpl. apply last_snoc.
Qed.

Section Words.

Variable key_to_char : N → bool → option str.

(** What happens when [t] is typed and the space key follows, in terms of
    the evaluation of the buffer at the space key. *)
Lemma typed_word_run t s :
  is_running s = true → t ≠ [] →
  on_key_events key_to_char (typing t ++ [space_key]) s
  = let '(_, s1, calls) :=
      check_and_correct_word (with_buffer (buffer s ++ t) s) in
    (tt, with_buffer (buffer s1 ++ py " ") s1, calls).
Proof.
  intros Hr Ht. rewrite on_key_events_app, typing_run by exact Hr.
  cbn [on_key_events]. unfold mbind, M_bind.
  rewrite on_key_event_space by (exact Hr || reflexivity).
  cbn [buffer with_buffer]. rewrite (truthy_app_r _ _ Ht).
  destruct (check_and_correct_word _) as [[[] s1] c1].
  unfold pass, mret, M_ret. now rewrite app_nil_r.
Qed.

(** C1 (amended): for every token [t] that is a key of the Thai-to-English
    table, is not empty and has no white space at either end, typing the
    characters of [t] and then the space key, while the handler is running
    and the buffer holds nothing but white space, makes exactly the calls of
    one correction: [len t + 1] presses of backspace, then the writing of
    the table's entry for [t] followed by one space (and the log line).  The
    buffer is then the space alone. *)
Theorem typed_thai_key_is_corrected s t v :
  is_running s = true → strip (buffer s) = [] →
  t ≠ [] → strip t = t →
  thai_to_eng_mappings s !! t = Some v →
  on_key_events key_to_char (typing t ++ [space_key]) s
  = (tt, with_buffer (py " ") s,
     replicate (len t + 1) (press_and_release (py "backspace"))
     ++ [write (v ++ py " "); log_info (corrected_msg t v)]).
Proof.
  intros Hr Hb Ht Hs HA. rewrite typed_word_run by assumption.
  rewrite (check_thai _ t v); [reflexivity| |exact Ht|exact HA].
  cbn [buffer with_buffer]. now rewrite strip_app_blank.
Qed.

(** C2 (amended): a space key handled while running, with a buffer that is
    not empty, has the buffer evaluated by [check_and_correct_word] and then
    appends the space to the buffer; the buffer therefore ends with that
    space after every space key, and it is the space alone when the word
    evaluated was a key of one of the two tables. *)
Theorem space_evaluates_and_is_kept e s :
  is_running s = true → event_type e = KEY_DOWN → name e = py "space" →
  (truthy (buffer s) = true →
   ∃ s1, check_and_correct_word s
         = (tt, s1, calls_of (on_key_event key_to_char e s))
         ∧ state_of (on_key_event key_to_char e s)
           = with_buffer (buffer s1 ++ py " ") s1)
  ∧ (∃ b, buffer (state_of (on_key_event key_to_char e s)) = b ++ py " ")
  ∧ (strip (buffer s) ≠ [] →
     is_Some (thai_to_eng_mappings s !! strip (buffer s))
     ∨ is_Some (eng_to_thai_mappings s !! strip (buffer s)) →
     buffer (state_of (on_key_event key_to_char e s)) = py " ").
Proof.
  intros Hr Hd Hn. rewrite on_key_event_space by assumption.
  split; [|split].
  - intros ->. destruct (check_and_correct_word s) as [[[] s1] c1].
    exists s1. split; reflexivity.
  - destruct (truthy (buffer s)).
    + destruct (check_and_correct_word s) as [[[] s1] c1].
      exists (buffer s1). reflexivity.
    + exists (buffer s). reflexivity.
  - intros Hw Hin.
    assert (Hb : truthy (buffer s) = true).
    { destruct (buffer s); [now elim Hw|reflexivity]. }
    rewrite Hb.
    destruct (thai_to_eng_mappings s !! strip (buffer s)) as [v|] eqn:HA.
    + now rewrite (check_thai s _ v eq_refl Hw HA).
    + destruct Hin as [[v [=]]|[v HB]].
      now rewrite (check_eng s _ v eq_refl Hw HA HB).
Qed.

(** C3 (amended): for every token whose white-space-trimmed form is not
    empty and is not a key of either table, typing the characters of the
    token and then the space key, while the handler is running and the
    buffer holds nothing but white space, makes no call at all (no
    backspace, no write) and appends the trimmed token to [recent_words]
    (dropping the oldest entry when that makes 21): the trimmed token is the
    last entry afterwards. *)
Theorem typed_unknown_word_is_remembered s t :
  is_running s = true → strip (buffer s) = [] →
  strip t ≠ [] →
  thai_to_eng_mappings s !! strip t = None →
  eng_to_thai_mappings s !! strip t = None →
  let r := on_key_events key_to_char (typing t ++ [space_key]) s in
  calls_of r = []
  ∧ recent_words (state_of r)
    = (if bool_decide (20 < length (recent_words s ++ [strip t]))
       then tail (recent_words s ++ [strip t])
       else recent_words s ++ [strip t])
  ∧ last (recent_words (state_of r)) = Some (strip t).
Proof.
  intros Hr Hb Ht HA HB r. subst r.
  assert (Hne : t ≠ []) by (intros ->; now apply Ht).
  rewrite typed_word_run by assumption.
  rewrite (check_none _ (strip t)); cbn [buffer with_buffer];
    [|now rewrite strip_app_blank|exact Ht|exact HA|exact HB].
  cbn [state_of calls_of fst snd recent_words with_buffer with_recent_words
       thai_to_eng_mappings eng_to_thai_mappings].
  split; [reflexivity|]. split; [reflexivity|].
  apply last_remembered.
Qed.

End Words.

(** ** The bound on [recent_words] *)

Lemma remembered_drop (l : list str) (w : str) :
  length l ≤ 20 →
  remembered l w = drop (length (l ++ [w]) - 20) (l ++ [w]).
Proof.
  intros Hl. unfold remembered. rewrite length_app. cbn [length].
  case_bool_decide as H.
  - replace (length l + 1 - 20) with 1 by lia. now destruct (l ++ [w]).
  - replace (length l + 1 - 20) with 0 by lia. reflexivity.
Qed.

Lemma length_remembered (l : list str) (w : str) :
  length l ≤ 20 → length (remembered l w) ≤ 20.
Proof.
  intros Hl. rewrite remembered_drop by exact Hl.
  rewrite length_drop, length_app. cbn [length]. lia.
Qed.

(** Keeping the last 20 entries, then appending, then keeping the last 20
    is keeping the last 20 of the whole. *)
Lemma drop_last_20_app (l ws : list str) :
  drop (length (drop (length l - 20) l ++ ws) - 20)
       (drop (length l - 20) l ++ ws)
  = drop (length (l ++ ws) - 20) (l ++ ws).
Proof.
  rewrite <- (drop_app_le l ws) by lia.
  rewrite drop_drop, length_drop, !length_app.
  f_equal. lia.
Qed.

Lemma check_recent_words_bound s :
  length (recent_words s) ≤ 20 →
  length (recent_words (state_of (check_and_correct_word s))) ≤ 20.
Proof.
  intros Hl.
  destruct (strip (buffer s)) as [|c w] eqn:Hw.
  { now rewrite check_blank. }
  destruct (thai_to_eng_mappings s !! (c :: w)) as [v|] eqn:HA.
  { now rewrite (check_thai s _ v Hw). }
  destruct (eng_to_thai_mappings s !! (c :: w)) as [v|] eqn:HB.
  { now rewrite (check_eng s _ v Hw). }
  rewrite (check_none s _ Hw) by done.
  now apply length_remembered.
Qed.

Lemma on_key_event_recent_words_bound key_to_char e s :
  length (recent_words s) ≤ 20 →
  length (recent_words (state_of (on_key_event key_to_char e s))) ≤ 20.
Proof.
  intros Hl.
  destruct (is_running s) eqn:Hr; [|now rewrite on_key_event_stopped].
  destruct (event_type e) eqn:Hd; [|now rewrite on_key_event_up].
  destruct (decide (name e = py "space")) as [Hn|Hn].
  - rewrite on_key_event_space by assumption.
    pose proof (check_recent_words_bound s Hl) as Hc.
    destruct (truthy (buffer s)); [|exact Hl].
    destruct (check_and_correct_word s) as [[[] s1] c1]. exact Hc.
  - unfold on_key_event. run. rewrite Hr, Hd.
    cbn [negb is_key_down]. rewrite (bool_decide_eq_false_2 _ Hn).
    repeat case_match; simplify_eq; exact Hl.
Qed.

Lemma evaluate_unmatched s b :
  unmatched s b →
  evaluate s b
  = with_recent_words (remembered (recent_words s) (strip b)) (with_buffer b s).
Proof.
  intros (Hw & HA & HB). unfold evaluate.
  now rewrite (check_none _ (strip b)).
Qed.

Lemma evaluate_all_recent_words bs : ∀ s,
  length (recent_words s) ≤ 20 →
  Forall (unmatched s) bs →
  recent_words (evaluate_all bs s)
  = drop (length (recent_words s ++ map strip bs) - 20)
         (recent_words s ++ map strip bs).
Proof.
  induction bs as [|b bs IH]; intros s Hl Hall.
  - cbn [evaluate_all fold_left map]. rewrite app_nil_r.
    replace (length (recent_words s) - 20) with 0 by lia. reflexivity.
  - apply Forall_cons in Hall as [Hb Hbs].
    cbn [evaluate_all fold_left]. fold (evaluate_all bs (evaluate s b)).
    rewrite (evaluate_unmatched _ _ Hb).
    rewrite IH; cbn [recent_words with_recent_words];
      [|now apply length_remembered|exact Hbs].
    rewrite remembered_drop by exact Hl.
    rewrite drop_last_20_app. cbn [map].
    now rewrite <- app_assoc.
Qed.

(** C4: starting with at most 20 entries (the list is empty at start-up),
    [recent_words] never holds more than 20 entries, whatever key events are
    handled; and when buffers whose words match neither table are evaluated
    one after the other, the list holds the last 20 of the old entries
    followed by those words, in that order: the 21st entry evicts the one at
    the front. *)
Theorem recent_words_bounded_fifo key_to_char s :
  length (recent_words s) ≤ 20 →
  (∀ events,
     length (recent_words (state_of (on_key_events key_to_char events s)))
     ≤ 20)
  ∧ (∀ bs, Forall (unmatched s) bs →
       recent_words (evaluate_all bs s)
       = drop (length (recent_words s ++ map strip bs) - 20)
              (recent_words s ++ map strip bs))
  ∧ (∀ b, unmatched s b → length (recent_words s) = 20 →
       recent_words (evaluate s b) = tail (recent_words s) ++ [strip b]).
Proof.
  intros Hl. split; [|split].
  - intros events. revert s Hl.
    induction events as [|e events IH]; intros s Hl; [exact Hl|].
    cbn [on_key_events]. unfold mbind, M_bind.
    pose proof (on_key_event_recent_words_bound key_to_char e s Hl) as H1.
    destruct (on_key_event key_to_char e s) as [[[] s1] c1].
    specialize (IH s1 H1).
    destruct (on_key_events key_to_char events s1) as [[[] s2] c2].
    exact IH.
  - intros bs Hbs. now apply evaluate_all_recent_words.
  - intros b Hb H20. rewrite (evaluate_unmatched _ _ Hb).
    cbn [recent_words with_recent_words]. unfold remembered.
    rewrite bool_decide_eq_true_2 by (rewrite length_app; simpl; lia).
    destruct (recent_words s); [discriminate|reflexivity].
Qed.

(** ** The other keys and the evaluation *)

(** C5: the word evaluated is looked up in the Thai-to-English table first
    and in the English-to-Thai table second.  A word found in the first
    table is corrected to its entry there, whatever the second table holds
    (so also when both tables have it); a word found in the second table
    only is corrected to that entry; a word found in neither is not
    corrected. *)
Theorem thai_to_eng_is_looked_up_first s w :
  strip (buffer s) = w → w ≠ [] →
  (∀ a, thai_to_eng_mappings s !! w = Some a →
     check_and_correct_word s
     = (tt, with_buffer [] s,
        replicate (len w + 1) (press_and_release (py "backspace"))
        ++ [write (a ++ py " "); log_info (corrected_msg w a)]))
  ∧ (∀ b, thai_to_eng_mappings s !! w = None →
       eng_to_thai_mappings s !! w = Some b →
       check_and_correct_word s
       = (tt, with_buffer [] s,
          replicate (len w + 1) (press_and_release (py "backspace"))
          ++ [write (b ++ py " "); log_info (corrected_msg w b)]))
  ∧ (thai_to_eng_mappings s !! w = None →
     eng_to_thai_mappings s !! w = None →
     calls_of (check_and_correct_word s) = []).
Proof.
  intros Hw Hne. split; [|split].
  - intros a HA. exact (check_thai s w a Hw Hne HA).
  - intros b HA HB. exact (check_eng s w b Hw Hne HA HB).
  - intros HA HB. now rewrite (check_none s w Hw Hne HA HB).
Qed.

(** C6: a key-down event of the enter key, handled while running, empties
    the buffer whatever it held; nothing is evaluated, no call is made, and
    [recent_words] and the tables are as before. *)
Theorem enter_clears_the_buffer key_to_char e s :
  is_running s = true → event_type e = KEY_DOWN → name e = py "enter" →
  on_key_event key_to_char e s = (tt, with_buffer [] s, [])
  ∧ buffer (with_buffer [] s) = []
  ∧ recent_words (with_buffer [] s) = recent_words s.
Proof.
  intros Hr Hd Hn. split; [|split; reflexivity].
  now apply on_key_event_enter.
Qed.

(** C7: a key-down event of the backspace key, handled while running, does
    nothing when the buffer is empty and removes exactly the last character
    when it is not; in both cases nothing is evaluated and no call is
    made. *)
Theorem backspace_removes_last_character key_to_char e s :
  is_running s = true → event_type e = KEY_DOWN → name e = py "backspace" →
  (buffer s = [] → on_key_event key_to_char e s = (tt, s, []))
  ∧ (∀ b c, buffer s = b ++ [c] →
       on_key_event key_to_char e s = (tt, with_buffer b s, [])).
Proof.
  intros Hr Hd Hn. rewrite on_key_event_backspace by assumption. split.
  - now intros ->.
  - intros b c ->. rewrite truthy_app_r by discriminate.
    unfold drop_last. now rewrite removelast_last.
Qed.

(** C8: when the buffer holds nothing or only white space, its evaluation
    does nothing: no call is made and the object, [recent_words] included,
    is unchanged.  The space key that triggers it then only adds itself to
    the buffer. *)
Theorem blank_word_is_ignored key_to_char s :
  strip (buffer s) = [] →
  check_and_correct_word s = (tt, s, [])
  ∧ (is_running s = true →
     on_key_event key_to_char space_key s
     = (tt, with_buffer (buffer s ++ py " ") s, [])).
Proof.
  intros Hb. split; [now apply check_blank|].
  intros Hr. rewrite on_key_event_space by (exact Hr || reflexivity).
  rewrite (check_blank s Hb). now destruct (truthy (buffer s)).
Qed.

(** C10: once [is_running] is false, the handler returns at once for every
    event: the buffer, [recent_words] and the tables are unchanged and no
    call is made, for one event and for any number of them. *)
Theorem stopped_handler_does_nothing key_to_char s :
  is_running s = false →
  (∀ e, on_key_event key_to_char e s = (tt, s, []))
  ∧ (∀ events, on_key_events key_to_char events s = (tt, s, [])).
Proof.
  intros Hr.
  assert (H1 : ∀ e, on_key_event key_to_char e s = (tt, s, []))
    by (intros e; now apply on_key_event_stopped).
  split; [exact H1|].
  induction events as [|e events IH]; [reflexivity|].
  cbn [on_key_events]. unfold mbind, M_bind. now rewrite H1, IH.
Qed.

(** ** Loading the tables *)

Section Loading.

Variable json_load : list N → Exception + table.
Variable json_dump : table → list N.
Variable open_w_raises : str → option Exception.

Lemma load_mappings_raises fs filename data e :
  fs !! filename = Some data → json_load data = inl e →
  load_mappings json_load json_dump open_w_raises fs filename
  = (∅, fs,
     [log_error (py "Failed to load mappings from " ++ filename
                 ++ py ": " ++ e)]).
Proof. intros Hf He. unfold load_mappings. now rewrite Hf, He. Qed.

(** Loading a table leaves the other files as they are. *)
Lemma load_mappings_other fs filename other :
  filename ≠ other →
  snd (fst (load_mappings json_load json_dump open_w_raises fs filename))
    !! other = fs !! other.
Proof.
  intros Hne. unfold load_mappings.
  destruct (fs !! filename) as [data|].
  - now destruct (json_load data).
  - destruct (open_w_raises filename); [reflexivity|].
    cbn [fst snd]. now rewrite lookup_insert_ne.
Qed.

(** C9: when the file of a table exists and [json.load] raises on it,
    [load_mappings] returns the empty dictionary, logs the error and leaves
    the files alone; nothing is raised.  [__init__] then goes on, and the
    new object runs with an empty table for that direction. *)
Theorem unreadable_table_is_empty fs filename data e :
  fs !! filename = Some data → json_load data = inl e →
  load_mappings json_load json_dump open_w_raises fs filename
  = (∅, fs,
     [log_error (py "Failed to load mappings from " ++ filename
                 ++ py ": " ++ e)])
  ∧ (filename = py "thai_to_eng.json" →
     thai_to_eng_mappings
       (fst (fst (SwitchLang_init json_load json_dump open_w_raises fs))) = ∅)
  ∧ (filename = py "eng_to_thai.json" →
     eng_to_thai_mappings
       (fst (fst (SwitchLang_init json_load json_dump open_w_raises fs))) = ∅)
  ∧ is_running
      (fst (fst (SwitchLang_init json_load json_dump open_w_raises fs)))
    = true.
Proof.
  intros Hf He. split; [exact (load_mappings_raises _ _ data e Hf He)|].
  unfold SwitchLang_init. split; [|split].
  - intros ->. rewrite (load_mappings_raises _ _ data e Hf He).
    now destruct (load_mappings _ _ _ _ _) as [[B fs2] c2].
  - intros ->.
    pose proof (load_mappings_other fs (py "thai_to_eng.json")
                  (py "eng_to_thai.json")) as Ho.
    destruct (load_mappings _ _ _ fs _) as [[A fs1] c1].
    cbn [fst snd] in Ho. rewrite Hf in Ho.
    rewrite (load_mappings_raises fs1 _ data e); [reflexivity| |exact He].
    apply Ho. vm_compute. discriminate.
  - destruct (load_mappings _ _ _ fs _) as [[A fs1] c1].
    now destruct (load_mappings _ _ _ fs1 _) as [[B fs2] c2].
Qed.

End Loading.

(** ** The properties on concrete runs *)

(** The scenario of C1: at a first start, the garbled greeting and a space
    are typed; eleven backspaces follow, then the greeting and a space. *)
Lemma typed_thai_key_is_corrected_witness :
  (is_running fresh = true ∧ strip (buffer fresh) = []
   ∧ py "l;ylfu8iy[" ≠ [] ∧ strip (py "l;ylfu8iy[") = py "l;ylfu8iy["
   ∧ thai_to_eng_mappings fresh !! py "l;ylfu8iy[" = Some (py "สวัสดีครับ"))
  ∧ on_key_events no_key_to_char (typing (py "l;ylfu8iy[") ++ [space_key]) fresh
    = (tt, with_buffer (py " ") fresh,
       replicate 11 (press_and_release (py "backspace"))
       ++ [write (py "สวัสดีครับ ");
           log_info (py "Corrected: 'l;ylfu8iy[' to 'สวัสดีครับ'")]).
Proof.
  split.
  - repeat split; try reflexivity. discriminate.
  - apply (typed_thai_key_is_corrected no_key_to_char fresh
             (py "l;ylfu8iy[") (py "สวัสดีครับ"));
      try reflexivity. discriminate.
Defined.

(** C1 as stated fails for the empty key: a table may hold the empty string
    as a key, typing it is typing nothing, and the space key that follows
    finds the buffer empty, so that nothing is evaluated and no call is
    made, where the claim has one correction with one backspace. *)
Lemma empty_thai_key_is_not_corrected :
  thai_to_eng_mappings empty_key_state !! empty_str = Some (py "x")
  ∧ on_key_events no_key_to_char (typing empty_str ++ [space_key])
      empty_key_state
    = (tt, with_buffer (py " ") empty_key_state, [])
  ∧ calls_of (on_key_events no_key_to_char (typing empty_str ++ [space_key])
                empty_key_state)
    ≠ replicate (len empty_str + 1) (press_and_release (py "backspace"))
      ++ [write (py "x" ++ py " "); log_info (corrected_msg empty_str (py "x"))].
Proof.
  split; [reflexivity|]. split; [reflexivity|].
  vm_compute. discriminate.
Qed.

(** C2 on the garbled greeting: after the space key the buffer is the space
    alone. *)
Lemma space_evaluates_and_is_kept_witness :
  (is_running typed_sawasdee = true ∧ event_type space_key = KEY_DOWN
   ∧ name space_key = py "space")
  ∧ buffer (state_of (on_key_event no_key_to_char space_key typed_sawasdee))
    = py " ".
Proof.
  split.
  - repeat split; reflexivity.
  - apply (space_evaluates_and_is_kept no_key_to_char space_key typed_sawasdee);
      try reflexivity.
    + vm_compute. discriminate.
    + left. exists (py "สวัสดีครับ"). reflexivity.
Defined.

(** C2 as stated fails: after a space key the buffer is never empty.  When
    the word is corrected the buffer is emptied by [apply_correction] and
    the space is then appended; when the word is not in the tables the
    buffer keeps it, and the space is appended as well. *)
Lemma buffer_is_not_empty_after_space :
  buffer (state_of (on_key_event no_key_to_char space_key typed_sawasdee))
  = py " "
  ∧ buffer (state_of (on_key_event no_key_to_char space_key typed_abc))
    = py "abc "
  ∧ buffer (state_of (on_key_event no_key_to_char space_key typed_sawasdee))
    ≠ []
  ∧ buffer (state_of (on_key_event no_key_to_char space_key typed_abc)) ≠ [].
Proof. repeat split; try reflexivity; vm_compute; discriminate. Qed.

(** The scenario of C3: [hello] and a space are typed at a first start. *)
Lemma typed_unknown_word_is_remembered_witness :
  (is_running fresh = true ∧ strip (buffer fresh) = []
   ∧ strip (py "hello") ≠ []
   ∧ thai_to_eng_mappings fresh !! strip (py "hello") = None
   ∧ eng_to_thai_mappings fresh !! strip (py "hello") = None)
  ∧ calls_of (on_key_events no_key_to_char (typing (py "hello") ++ [space_key])
                fresh) = []
  ∧ recent_words
      (state_of (on_key_events no_key_to_char
                   (typing (py "hello") ++ [space_key]) fresh))
    = [py "hello"]
  ∧ last (recent_words
            (state_of (on_key_events no_key_to_char
                         (typing (py "hello") ++ [space_key]) fresh)))
    = Some (py "hello").
Proof.
  split.
  - repeat split; try reflexivity. vm_compute. discriminate.
  - apply (typed_unknown_word_is_remembered no_key_to_char fresh (py "hello"));
      try reflexivity. vm_compute. discriminate.
Defined.

(** C3 as stated fails for the empty token: it is a key of neither table of
    [fresh], typing it is typing nothing, and the space key that follows
    evaluates nothing, so that [recent_words] stays empty, where the claim
    has the trimmed token appended. *)
Lemma empty_token_is_not_remembered :
  thai_to_eng_mappings fresh !! empty_str = None
  ∧ eng_to_thai_mappings fresh !! empty_str = None
  ∧ recent_words
      (state_of (on_key_events no_key_to_char (typing empty_str ++ [space_key])
                   fresh))
    = []
  ∧ last (recent_words
            (state_of (on_key_events no_key_to_char
                         (typing empty_str ++ [space_key]) fresh)))
    ≠ Some (strip empty_str).
Proof. repeat split; try reflexivity. vm_compute. discriminate. Qed.

(** The test [unmatchedb] is sound. *)
Lemma unmatchedb_true s b : unmatchedb s b = true → unmatched s b.
Proof.
  unfold unmatchedb, unmatched. intros H.
  apply andb_prop in H as [H1 H2].
  destruct (thai_to_eng_mappings s !! strip b); [discriminate|].
  destruct (eng_to_thai_mappings s !! strip b); [discriminate|].
  split; [|split; reflexivity].
  intros E. now rewrite E in H1.
Defined.

Lemma forallb_unmatched s bs :
  forallb (unmatchedb s) bs = true → Forall (unmatched s) bs.
Proof.
  induction bs as [|b bs IH]; intros H; [constructor|].
  cbn [forallb] in H. apply andb_prop in H as [H1 H2].
  constructor; [now apply unmatchedb_true|now apply IH].
Defined.

Lemma letters_unmatched : Forall (unmatched fresh) letters_a_to_u.
Proof. apply forallb_unmatched. vm_compute. reflexivity. Defined.

(** C4 at a first start: the bound after [hello] is typed, and the 21
    letters [a] to [u] evaluated in turn leave [b] to [u]. *)
Lemma recent_words_bounded_fifo_witness :
  length (recent_words fresh) ≤ 20
  ∧ length (recent_words
              (state_of (on_key_events no_key_to_char
                           (typing (py "hello") ++ [space_key]) fresh))) ≤ 20
  ∧ recent_words (evaluate_all letters_a_to_u fresh)
    = map (λ c, [c]) (py "bcdefghijklmnopqrstu").
Proof.
  assert (H0 : length (recent_words fresh) ≤ 20) by (simpl; lia).
  split; [exact H0|].
  destruct (recent_words_bounded_fifo no_key_to_char fresh H0)
    as (Hbound & Hfifo & _).
  split.
  - apply Hbound.
  - exact (Hfifo letters_a_to_u letters_unmatched).
Defined.

(** C5 on a word that both tables hold: the Thai-to-English entry is
    written. *)
Lemma thai_to_eng_is_looked_up_first_witness :
  (strip (buffer typed_in_both_tables) = py "l;ylfu8iy[" ∧ py "l;ylfu8iy[" ≠ []
   ∧ thai_to_eng_mappings typed_in_both_tables !! py "l;ylfu8iy["
     = Some (py "สวัสดีครับ")
   ∧ eng_to_thai_mappings typed_in_both_tables !! py "l;ylfu8iy["
     = Some (py "hello"))
  ∧ check_and_correct_word typed_in_both_tables
    = (tt, with_buffer [] typed_in_both_tables,
       replicate 11 (press_and_release (py "backspace"))
       ++ [write (py "สวัสดีครับ ");
           log_info (py "Corrected: 'l;ylfu8iy[' to 'สวัสดีครับ'")]).
Proof.
  split.
  - repeat split; try reflexivity. discriminate.
  - assert (Hne : py "l;ylfu8iy[" ≠ []) by discriminate.
    exact (proj1 (thai_to_eng_is_looked_up_first typed_in_both_tables
                    (py "l;ylfu8iy[") eq_refl Hne)
             (py "สวัสดีครับ") eq_refl).
Defined.

(** The scenario of C6: the buffer holds [abc] and the enter key comes. *)
Lemma enter_clears_the_buffer_witness :
  (is_running typed_abc = true ∧ event_type enter_key = KEY_DOWN
   ∧ name enter_key = py "enter")
  ∧ on_key_event no_key_to_char enter_key typed_abc = (tt, fresh, []).
Proof.
  split.
  - repeat split; reflexivity.
  - apply (enter_clears_the_buffer no_key_to_char enter_key typed_abc);
      reflexivity.
Defined.

(** C7 on an empty buffer and on the buffer [abc]. *)
Lemma backspace_removes_last_character_witness :
  (is_running typed_abc = true ∧ event_type backspace_key = KEY_DOWN
   ∧ name backspace_key = py "backspace")
  ∧ on_key_event no_key_to_char backspace_key fresh = (tt, fresh, [])
  ∧ on_key_event no_key_to_char backspace_key typed_abc
    = (tt, with_buffer (py "ab") fresh, []).
Proof.
  split; [repeat split; reflexivity|]. split.
  - apply (backspace_removes_last_character no_key_to_char backspace_key fresh);
      reflexivity.
  - apply (proj2 (backspace_removes_last_character no_key_to_char
                    backspace_key typed_abc eq_refl eq_refl eq_refl)
             (py "ab") 99%N).
    reflexivity.
Defined.

(** C8 on a buffer of two spaces. *)
Lemma blank_word_is_ignored_witness :
  strip (buffer typed_blanks) = []
  ∧ check_and_correct_word typed_blanks = (tt, typed_blanks, [])
  ∧ on_key_event no_key_to_char space_key typed_blanks
    = (tt, with_buffer (py "   ") fresh, []).
Proof.
  split; [reflexivity|].
  destruct (blank_word_is_ignored no_key_to_char typed_blanks eq_refl)
    as [Hcheck Hspace].
  split; [exact Hcheck|exact (Hspace eq_refl)].
Defined.

(** C9 on a Thai-to-English file that is cut short. *)
Lemma unreadable_table_is_empty_witness :
  (broken_files !! py "thai_to_eng.json" = Some (py "{ l;ylfu8iy[: ")
   ∧ sample_json_load (py "{ l;ylfu8iy[: ")
     = inl (py "Expecting value: line 1 column 1 (char 0)"))
  ∧ load_mappings sample_json_load sample_json_dump sample_open_w
      broken_files (py "thai_to_eng.json")
    = (∅, broken_files,
       [log_error (py "Failed to load mappings from "
                   ++ py "thai_to_eng.json" ++ py ": "
                   ++ py "Expecting value: line 1 column 1 (char 0)")])
  ∧ thai_to_eng_mappings
      (fst (fst (SwitchLang_init sample_json_load sample_json_dump
                   sample_open_w broken_files))) = ∅.
Proof.
  assert (Hf : broken_files !! py "thai_to_eng.json"
               = Some (py "{ l;ylfu8iy[: ")) by reflexivity.
  assert (He : sample_json_load (py "{ l;ylfu8iy[: ")
               = inl (py "Expecting value: line 1 column 1 (char 0)"))
    by reflexivity.
  split; [split; assumption|].
  destruct (unreadable_table_is_empty sample_json_load sample_json_dump
              sample_open_w broken_files (py "thai_to_eng.json")
              (py "{ l;ylfu8iy[: ")
              (py "Expecting value: line 1 column 1 (char 0)")
              Hf He) as (Hload & Hthai & _).
  split; [exact Hload|exact (Hthai eq_refl)].
Defined.

(** C10 after [exit_app]. *)
Lemma stopped_handler_does_nothing_witness :
  is_running stopped = false
  ∧ on_key_event no_key_to_char space_key stopped = (tt, stopped, [])
  ∧ on_key_events no_key_to_char (typing (py "l;ylfu8iy[") ++ [space_key])
      stopped
    = (tt, stopped, []).
Proof.
  split; [reflexivity|].
  destruct (stopped_handler_does_nothing no_key_to_char stopped eq_refl)
    as [Hone Hall].
  split; [apply Hone|apply Hall].
Defined.

(** ** Further runs

    Where the buffer holds an earlier word that was not corrected, the next
    word is evaluated together with it: the garbled word of the defaults is
    not corrected when it is typed after [hello] and a space. *)
Example word_after_unknown_word :
  on_key_events no_key_to_char
    (typing (py "hello") ++ [space_key]
     ++ typing (py "l;ylfu8iy[") ++ [space_key]) fresh
  = (tt,
     with_recent_words [py "hello"; py "hello l;ylfu8iy["]
       (with_buffer (py "hello l;ylfu8iy[ ") fresh),
     []).
Proof. reflexivity. Qed.

(** After a correction the buffer holds the space alone, and the next word
    is corrected as well. *)
Example word_after_corrected_word :
  calls_of (on_key_events no_key_to_char
              (typing (py "wxwso,k") ++ [space_key]
               ++ typing (py "l;ylfu8iy[") ++ [space_key]) fresh)
  = correction_calls (py "wxwso,k") (py "ไปไหนมา")
    ++ correction_calls (py "l;ylfu8iy[") (py "สวัสดีครับ").
Proof. reflexivity. Qed.

(** The key looked up is the trimmed token: a key with a space in front is
    never found, and a token with a space in front is corrected when its
    trimmed form is a key. *)
Example token_with_leading_space :
  thai_to_eng_mappings fresh !! py " wxwso,k" = None
  ∧ calls_of (on_key_events no_key_to_char
                (typing (py " wxwso,k") ++ [space_key]) fresh)
    = correction_calls (py "wxwso,k") (py "ไปไหนมา").
Proof. split; reflexivity. Qed.

(** Key-up events change nothing. *)
Example key_up_is_ignored :
  on_key_event no_key_to_char (mkEvent KEY_UP (py "enter") None) typed_abc
  = (tt, typed_abc, []).
Proof. reflexivity. Qed.

(** ** The handler as a whole *)

(** The three outcomes of an evaluation. *)
Lemma check_cases s :
  (strip (buffer s) = [] ∧ check_and_correct_word s = (tt, s, []))
  ∨ (∃ v, strip (buffer s) ≠ []
        ∧ (thai_to_eng_mappings s !! strip (buffer s) = Some v
           ∨ (thai_to_eng_mappings s !! strip (buffer s) = None
              ∧ eng_to_thai_mappings s !! strip (buffer s) = Some v))
        ∧ check_and_correct_word s
          = (tt, with_buffer [] s, correction_calls (strip (buffer s)) v))
  ∨ (unmatched s (buffer s)
     ∧ check_and_correct_word s
       = (tt, with_recent_words
                (remembered (recent_words s) (strip (buffer s))) s, [])).
Proof.
  destruct (strip (buffer s)) as [|c w] eqn:Hw.
  { left. split; [reflexivity|]. now apply check_blank. }
  right.
  destruct (thai_to_eng_mappings s !! (c :: w)) as [v|] eqn:HA.
  { left. exists v. split; [discriminate|]. split; [now left|].
    now apply check_thai. }
  destruct (eng_to_thai_mappings s !! (c :: w)) as [v|] eqn:HB.
  { left. exists v. split; [discriminate|]. split; [now right|].
    now apply check_eng. }
  right. split.
  - unfold unmatched. now rewrite Hw.
  - now apply check_none.
Qed.

Section Whole.

Variable key_to_char : N → bool → option str.

(** Every key but the space key only assigns the buffer, and makes it at
    most one character longer. *)
Lemma on_key_event_other e s :
  name e ≠ py "space" →
  ∃ b, on_key_event key_to_char e s = (tt, with_buffer b s, [])
       ∧ length b ≤ length (buffer s) + 1.
Proof.
  intros Hn.
  assert (Hsame : ∃ b, (tt, s, @nil effect) = (tt, with_buffer b s, [])
                       ∧ length b ≤ length (buffer s) + 1).
  { exists (buffer s). rewrite with_buffer_id. split; [reflexivity|lia]. }
  destruct (is_running s) eqn:Hr; [|now rewrite on_key_event_stopped].
  destruct (event_type e) eqn:Hd; [|now rewrite on_key_event_up].
  destruct (decide (name e = py "enter")) as [He|He].
  { rewrite on_key_event_enter by assumption.
    exists []. split; [reflexivity|simpl; lia]. }
  destruct (decide (name e = py "backspace")) as [Hb|Hb].
  { rewrite on_key_event_backspace by assumption.
    destruct (truthy (buffer s)); [|exact Hsame].
    exists (drop_last (buffer s)). split; [reflexivity|].
    unfold drop_last. destruct (buffer s) as [|c r] using rev_ind;
      [simpl; lia|].
    rewrite removelast_last, length_app. lia. }
  destruct (decide (len (name e) = 1)) as [H1|H1].
  { rewrite on_key_event_char by assumption.
    exists (buffer s ++ name e). split; [reflexivity|].
    rewrite length_app. unfold len in H1. lia. }
  unfold on_key_event. run. rewrite Hr, Hd. cbn [negb is_key_down].
  rewrite (bool_decide_eq_false_2 _ Hn), (bool_decide_eq_false_2 _ He),
    (bool_decide_eq_false_2 _ Hb), (bool_decide_eq_false_2 _ H1).
  cbn [orb].
  destruct (bool_decide (name e ∈ modifiers)); cbn [negb]; [exact Hsame|].
  destruct (scan_code e) as [code|]; [|exact Hsame].
  destruct (key_to_char code false) as [ch|]; [|exact Hsame].
  destruct (truthy ch && bool_decide (len ch = 1)) eqn:Hc; [|exact Hsame].
  apply andb_prop in Hc as [_ Hc]. apply bool_decide_eq_true_1 in Hc.
  exists (buffer s ++ ch). split; [reflexivity|].
  rewrite length_app. unfold len in Hc. lia.
Qed.

(** What one event leaves alone, and what it may do. *)
Lemma on_key_event_frame e s :
  let s' := state_of (on_key_event key_to_char e s) in
  is_running s' = is_running s
  ∧ word_mappings s' = word_mappings s
  ∧ thai_to_eng_mappings s' = thai_to_eng_mappings s
  ∧ eng_to_thai_mappings s' = eng_to_thai_mappings s
  ∧ length (buffer s') ≤ length (buffer s) + 1.
Proof.
  assert (Hsame : is_running s = is_running s
                  ∧ word_mappings s = word_mappings s
                  ∧ thai_to_eng_mappings s = thai_to_eng_mappings s
                  ∧ eng_to_thai_mappings s = eng_to_thai_mappings s
                  ∧ length (buffer s) ≤ length (buffer s) + 1)
    by (repeat split; lia).
  destruct (decide (name e = py "space")) as [Hn|Hn].
  - destruct (is_running s) eqn:Hr in |- *;
      [|now rewrite on_key_event_stopped].
    destruct (event_type e) eqn:Hd; [|now rewrite on_key_event_up].
    rewrite on_key_event_space by assumption.
    destruct (truthy (buffer s)).
    + destruct (check_cases s) as [[_ ->]|[(v & _ & _ & ->)|[_ ->]]];
        cbn [state_of fst snd is_running word_mappings thai_to_eng_mappings
             eng_to_thai_mappings buffer with_buffer with_recent_words];
        rewrite ?length_app; change (length (py " ")) with 1;
        cbn [length]; repeat split; first [assumption|lia].
    + cbn [state_of fst snd is_running word_mappings thai_to_eng_mappings
           eng_to_thai_mappings buffer with_buffer].
      rewrite length_app. change (length (py " ")) with 1.
      repeat split; first [assumption|lia].
  - destruct (on_key_event_other e s Hn) as (b & -> & Hb).
    cbn [state_of fst snd is_running word_mappings thai_to_eng_mappings
         eng_to_thai_mappings buffer with_buffer].
    repeat split. exact Hb.
Qed.

(** X1: whatever key events are handled, the handler never changes the two
    tables, [word_mappings] or [is_running]. *)
Theorem handler_keeps_the_tables events s :
  let s' := state_of (on_key_events key_to_char events s) in
  thai_to_eng_mappings s' = thai_to_eng_mappings s
  ∧ eng_to_thai_mappings s' = eng_to_thai_mappings s
  ∧ word_mappings s' = word_mappings s
  ∧ is_running s' = is_running s.
Proof.
  revert s. induction events as [|e events IH]; intros s; [easy|].
  cbn [on_key_events]. unfold mbind, M_bind.
  pose proof (on_key_event_frame e s) as Hf.
  destruct (on_key_event key_to_char e s) as [[[] s1] c1].
  specialize (IH s1).
  destruct (on_key_events key_to_char events s1) as [[[] s2] c2].
  cbn [state_of fst snd] in *.
  destruct Hf as (F1 & F2 & F3 & F4 & _). destruct IH as (E1 & E2 & E3 & E4).
  repeat split; congruence.
Qed.

(** X2: one key event makes the buffer at most one character longer, also
    when the character comes from [key_to_char]: a resolved string of
    several characters is not added. *)
Theorem buffer_grows_by_at_most_one e s :
  length (buffer (state_of (on_key_event key_to_char e s)))
  ≤ length (buffer s) + 1.
Proof. apply on_key_event_frame. Qed.

(** X3: the only calls an event can cause are those of one correction.  If
    an event makes a call, then the handler is running, the event is a
    key-down of the space key, the trimmed buffer is not empty, and the
    calls are the backspaces, the write and the log line for that word and
    its entry, taken from the Thai-to-English table when it has one and
    from the English-to-Thai table otherwise. *)
Theorem calls_are_one_correction e s :
  calls_of (on_key_event key_to_char e s) ≠ [] →
  is_running s = true ∧ event_type e = KEY_DOWN ∧ name e = py "space"
  ∧ strip (buffer s) ≠ []
  ∧ ∃ v,
      (thai_to_eng_mappings s !! strip (buffer s) = Some v
       ∨ (thai_to_eng_mappings s !! strip (buffer s) = None
          ∧ eng_to_thai_mappings s !! strip (buffer s) = Some v))
      ∧ calls_of (on_key_event key_to_char e s)
        = replicate (len (strip (buffer s)) + 1)
            (press_and_release (py "backspace"))
          ++ [write (v ++ py " ");
              log_info (corrected_msg (strip (buffer s)) v)].
Proof.
  intros Hc.
  destruct (decide (name e = py "space")) as [Hn|Hn];
    [|destruct (on_key_event_other e s Hn) as (b & Hb & _);
      now rewrite Hb in Hc].
  destruct (is_running s) eqn:Hr;
    [|now rewrite on_key_event_stopped in Hc].
  destruct (event_type e) eqn:Hd; [|now rewrite on_key_event_up in Hc].
  rewrite on_key_event_space in Hc |- * by assumption.
  destruct (truthy (buffer s)); [|now elim Hc].
  destruct (check_cases s) as [[_ Hk]|[(v & Hw & Hv & Hk)|[_ Hk]]];
    rewrite Hk in Hc |- *; try now elim Hc.
  repeat split; auto. exists v. split; [exact Hv|reflexivity].
Qed.

End Whole.

(** ** More on stripping *)

Lemma lstrip_suffix (s : str) : ∃ p, s = p ++ lstrip s.
Proof.
  induction s as [|c r [p IH]]; [now exists []|].
  simpl. destruct (isspace c); [|now exists []].
  exists (c :: p). simpl. now rewrite <- IH.
Qed.

Lemma rstrip_prefix (s : str) : ∃ q, s = rstrip s ++ q.
Proof.
  unfold rstrip. destruct (lstrip_suffix (rev s)) as [p Hp].
  exists (rev p). rewrite <- rev_app_distr, <- Hp. now rewrite rev_involutive.
Qed.

Lemma lstrip_cons_fix (c : char) (r : str) :
  isspace c = false → lstrip (c :: r) = c :: r.
Proof. intros H. simpl. now rewrite H. Qed.

(** A string that starts with a character that is no white space. *)
Lemma lstrip_fix_app (x y : str) :
  lstrip x = x → x ≠ [] → lstrip (x ++ y) = x ++ y.
Proof.
  intros Hx Hne. destruct x as [|c r]; [congruence|].
  pose proof (lstrip_head _ _ _ Hx) as Hc.
  simpl. now rewrite Hc.
Qed.

Lemma rstrip_fix_app (x y : str) :
  rstrip y = y → y ≠ [] → rstrip (x ++ y) = x ++ y.
Proof.
  unfold rstrip. intros Hy Hne.
  assert (Hr : lstrip (rev y) = rev y).
  { rewrite <- (rev_involutive (lstrip (rev y))). now rewrite Hy. }
  rewrite rev_app_distr, lstrip_fix_app; [|exact Hr|].
  - now rewrite <- rev_app_distr, rev_involutive.
  - intros E. apply Hne. rewrite <- (rev_involutive y). now rewrite E.
Qed.

Lemma lstrip_rstrip (x : str) : lstrip x = x → lstrip (rstrip x) = rstrip x.
Proof.
  intros Hx. destruct (rstrip_prefix x) as [q Hq].
  destruct (rstrip x) as [|c r] eqn:E; [reflexivity|].
  rewrite Hq in Hx. simpl in Hx.
  destruct (isspace c) eqn:Hc; [|apply lstrip_cons_fix, Hc].
  exfalso.
  assert (Hlen : length (lstrip (r ++ q)) ≤ length (r ++ q)).
  { destruct (lstrip_suffix (r ++ q)) as [p Hp].
    rewrite Hp at 2. rewrite length_app. lia. }
  rewrite Hx in Hlen. simpl in Hlen. lia.
Qed.

Lemma rstrip_idemp (x : str) : rstrip (rstrip x) = rstrip x.
Proof. unfold rstrip. now rewrite rev_involutive, lstrip_idemp. Qed.

(** Stripping twice is stripping once. *)
Lemma strip_idemp (b : str) : strip (strip b) = strip b.
Proof.
  unfold strip.
  rewrite (lstrip_rstrip (lstrip b) (lstrip_idemp b)).
  apply rstrip_idemp.
Qed.

Lemma strip_fix_lstrip (t : str) : strip t = t → lstrip t = t.
Proof.
  intros H. destruct (lstrip_suffix t) as [p Hp].
  destruct (rstrip_prefix (lstrip t)) as [q Hq].
  fold (strip t) in Hq. rewrite H in Hq.
  assert (Hl : length p = 0).
  { apply (f_equal (@length _)) in Hp, Hq.
    rewrite length_app in Hp, Hq. lia. }
  destruct p; [|discriminate]. now rewrite Hp at 2.
Qed.

Lemma strip_fix_rstrip (t : str) : strip t = t → rstrip t = t.
Proof.
  intros H. pose proof (strip_fix_lstrip t H) as Hl.
  unfold strip in H. now rewrite Hl in H.
Qed.

(** A word in the buffer, then a space, then a second word: the whole is
    what gets evaluated. *)
Lemma strip_two_words (b t1 t2 : str) :
  strip b = [] → strip t1 = t1 → t1 ≠ [] → strip t2 = t2 → t2 ≠ [] →
  strip ((b ++ t1 ++ py " ") ++ t2) = t1 ++ py " " ++ t2.
Proof.
  intros Hb H1 N1 H2 N2.
  rewrite <- !app_assoc. rewrite strip_app_blank by exact Hb.
  unfold strip.
  rewrite (lstrip_fix_app t1 _ (strip_fix_lstrip _ H1) N1).
  rewrite (app_assoc t1), (rstrip_fix_app _ t2 (strip_fix_rstrip _ H2) N2).
  now rewrite <- app_assoc.
Qed.

(** ** Keys, one after the other *)

Lemma Forall_remembered (P : str → Prop) (l : list str) (w : str) :
  Forall P l → P w → Forall P (remembered l w).
Proof.
  intros Hl Hw. assert (H : Forall P (l ++ [w])).
  { apply Forall_app. split; [exact Hl|]. now constructor. }
  unfold remembered. destruct (bool_decide _); [|exact H].
  destruct (l ++ [w]); [constructor|]. now inversion H.
Qed.

Section Sequences.

Variable key_to_char : N → bool → option str.

(** X4: the modifier keys shift, ctrl and alt are ignored: nothing is added
    to the buffer, nothing is evaluated and no call is made. *)
Theorem modifier_keys_are_ignored e s :
  name e ∈ modifiers → on_key_event key_to_char e s = (tt, s, []).
Proof.
  intros Hm.
  destruct (is_running s) eqn:Hr; [|now apply on_key_event_stopped].
  destruct (event_type e) eqn:Hd; [|now apply on_key_event_up].
  unfold on_key_event. run. rewrite Hr, Hd. cbn [negb is_key_down].
  rewrite (bool_decide_eq_true_2 _ Hm).
  unfold modifiers in Hm.
  repeat (apply elem_of_cons in Hm as [->|Hm];
          [repeat rewrite bool_decide_eq_false_2 by (vm_compute; discriminate);
           reflexivity|]).
  now apply elem_of_nil in Hm.
Qed.

(** X5: key-up events are ignored, whatever the key: a sequence of events is
    handled as the sequence of its key-down events. *)
Theorem key_up_events_can_be_dropped events s :
  on_key_events key_to_char events s
  = on_key_events key_to_char
      (List.filter (λ e, is_key_down (event_type e)) events) s.
Proof.
  revert s. induction events as [|e events IH]; intros s; [reflexivity|].
  cbn [List.filter]. destruct (event_type e) eqn:Hd; cbn [is_key_down].
  - cbn [on_key_events]. unfold mbind, M_bind.
    destruct (on_key_event key_to_char e s) as [[[] s1] c1].
    now rewrite IH.
  - cbn [on_key_events]. unfold mbind, M_bind.
    rewrite (on_key_event_up key_to_char e s Hd). rewrite IH.
    now destruct (on_key_events key_to_char _ s) as [[[] s2] c2].
Qed.

Lemma backspaces_run t : ∀ b s,
  is_running s = true →
  on_key_events key_to_char (replicate (length t) backspace_key)
    (with_buffer (b ++ t) s)
  = (tt, with_buffer b s, []).
Proof.
  induction t as [|c t IH] using rev_ind; intros b s Hr.
  - simpl. now rewrite app_nil_r.
  - rewrite length_app, Nat.add_1_r. cbn [length replicate on_key_events].
    unfold mbind, M_bind.
    rewrite on_key_event_backspace by (exact Hr || reflexivity).
    cbn [buffer with_buffer].
    rewrite app_assoc, truthy_app_r by discriminate.
    unfold drop_last. rewrite removelast_last.
    change (with_buffer (b ++ t) (with_buffer ((b ++ t) ++ [c]) s))
      with (with_buffer (b ++ t) s).
    now rewrite IH.
Qed.

(** X6: while the handler runs, typing a text and pressing backspace once
    for each of its characters leaves the object as it was, and makes no
    call. *)
Theorem backspace_undoes_typing t s :
  is_running s = true →
  on_key_events key_to_char
    (typing t ++ replicate (length t) backspace_key) s
  = (tt, s, []).
Proof.
  intros Hr. rewrite on_key_events_app, typing_run by exact Hr.
  rewrite (backspaces_run t (buffer s) s Hr).
  now rewrite with_buffer_id.
Qed.


(** X8: the enter key makes the next word start afresh.  Whatever the buffer
    holds, after the enter key a key of the Thai-to-English table (not
    empty, no white space at its ends) that is typed and followed by a
    space is corrected. *)
Theorem word_after_enter_is_corrected s t v :
  is_running s = true → t ≠ [] → strip t = t →
  thai_to_eng_mappings s !! t = Some v →
  on_key_events key_to_char (enter_key :: typing t ++ [space_key]) s
  = (tt, with_buffer (py " ") s,
     replicate (len t + 1) (press_and_release (py "backspace"))
     ++ [write (v ++ py " "); log_info (corrected_msg t v)]).
Proof.
  intros Hr Ht Hs HA. cbn [on_key_events]. unfold mbind, M_bind.
  rewrite on_key_event_enter by (exact Hr || reflexivity).
  rewrite typed_word_run by assumption.
  cbn [buffer with_buffer app].
  rewrite (check_thai _ t v); [reflexivity|exact Hs|exact Ht|exact HA].
Qed.

(** X9: corrections follow one another.  From a buffer with nothing but
    white space, two keys of the Thai-to-English table typed one after the
    other, each followed by a space, are both corrected, in that order. *)
Theorem two_words_are_corrected_in_turn s t1 v1 t2 v2 :
  is_running s = true → strip (buffer s) = [] →
  t1 ≠ [] → strip t1 = t1 → thai_to_eng_mappings s !! t1 = Some v1 →
  t2 ≠ [] → strip t2 = t2 → thai_to_eng_mappings s !! t2 = Some v2 →
  on_key_events key_to_char
    ((typing t1 ++ [space_key]) ++ (typing t2 ++ [space_key])) s
  = (tt, with_buffer (py " ") s,
     correction_calls t1 v1 ++ correction_calls t2 v2).
Proof.
  intros Hr Hb N1 H1 A1 N2 H2 A2.
  rewrite on_key_events_app, !typed_word_run by assumption.
  rewrite (check_thai _ t1 v1); [|cbn [buffer with_buffer];
    now rewrite strip_app_blank|exact N1|exact A1].
  rewrite typed_word_run by assumption.
  rewrite (check_thai _ t2 v2); [reflexivity| |exact N2|exact A2].
  cbn [buffer with_buffer app].
  change (strip (py " " ++ t2) = t2). now rewrite strip_app_blank.
Qed.

(** X10: a word that is in neither table stays in the buffer after its
    space, and the next word is evaluated together with it.  From a buffer
    with nothing but white space, when [t1] is typed, then a space, then
    [t2], then a space, the second evaluation is of [t1], a space and [t2]
    as one word: when that is in neither table, no call is made and both
    [t1] and the joined word are recorded, also when [t2] alone is a key. *)
Theorem unmatched_word_stays_in_the_buffer s t1 t2 :
  is_running s = true → strip (buffer s) = [] →
  t1 ≠ [] → strip t1 = t1 →
  thai_to_eng_mappings s !! t1 = None →
  eng_to_thai_mappings s !! t1 = None →
  t2 ≠ [] → strip t2 = t2 →
  thai_to_eng_mappings s !! (t1 ++ py " " ++ t2) = None →
  eng_to_thai_mappings s !! (t1 ++ py " " ++ t2) = None →
  on_key_events key_to_char
    ((typing t1 ++ [space_key]) ++ (typing t2 ++ [space_key])) s
  = (tt,
     with_recent_words
       (remembered (remembered (recent_words s) t1) (t1 ++ py " " ++ t2))
       (with_buffer (buffer s ++ t1 ++ py " " ++ t2 ++ py " ") s),
     []).
Proof.
  intros Hr Hb N1 H1 A1 B1 N2 H2 A2 B2.
  rewrite on_key_events_app, typed_word_run by assumption.
  rewrite (check_none _ t1); cbn [buffer with_buffer];
    [|now rewrite strip_app_blank|exact N1|exact A1|exact B1].
  rewrite typed_word_run by assumption.
  cbn [buffer with_buffer with_recent_words].
  rewrite (check_none _ (t1 ++ py " " ++ t2));
    cbn [buffer with_buffer with_recent_words thai_to_eng_mappings
         eng_to_thai_mappings];
    [|rewrite <- (app_assoc (buffer s) t1); now apply strip_two_words
     | |exact A2|exact B2].
  - cbn [recent_words]. now rewrite <- !app_assoc.
  - destruct t1; [congruence|discriminate].
Qed.

Lemma on_key_event_recordable e s :
  Forall (recordable s) (recent_words s) →
  Forall (recordable s)
    (recent_words (state_of (on_key_event key_to_char e s))).
Proof.
  intros Hl.
  destruct (decide (name e = py "space")) as [Hn|Hn];
    [|now destruct (on_key_event_other key_to_char e s Hn) as (b & -> & _)].
  destruct (is_running s) eqn:Hr; [|now rewrite on_key_event_stopped].
  destruct (event_type e) eqn:Hd; [|now rewrite on_key_event_up].
  rewrite on_key_event_space by assumption.
  destruct (truthy (buffer s)); [|exact Hl].
  destruct (check_cases s) as [[_ ->]|[(v & _ & _ & ->)|[Hu ->]]];
    try exact Hl.
  cbn [state_of fst snd recent_words with_buffer with_recent_words].
  apply Forall_remembered; [exact Hl|].
  destruct Hu as (Hw & HA & HB).
  split; [exact Hw|]. split; [apply strip_idemp|]. now split.
Qed.

(** X11: [recent_words] only ever receives words that are not empty, have
    no white space at either end and are keys of neither table: if that
    holds of its entries (it is empty at start-up), it holds after any
    sequence of key events. *)
Theorem recent_words_are_unmatched_words events s :
  Forall (recordable s) (recent_words s) →
  Forall (recordable s)
    (recent_words (state_of (on_key_events key_to_char events s))).
Proof.
  revert s. induction events as [|e events IH]; intros s Hl; [exact Hl|].
  cbn [on_key_events]. unfold mbind, M_bind.
  pose proof (on_key_event_recordable e s Hl) as H1.
  pose proof (on_key_event_frame key_to_char e s) as (_ & _ & EA & EB & _).
  destruct (on_key_event key_to_char e s) as [[[] s1] c1].
  cbn [state_of fst snd] in *.
  assert (Hsame : ∀ w, recordable s1 w ↔ recordable s w).
  { intros w. unfold recordable. now rewrite EA, EB. }
  assert (H1' : Forall (recordable s1) (recent_words s1)).
  { eapply Forall_impl; [exact H1|]. intros w. apply Hsame. }
  specialize (IH s1 H1').
  destruct (on_key_events key_to_char events s1) as [[[] s2] c2].
  cbn [state_of fst snd] in *.
  eapply Forall_impl; [exact IH|]. intros w. apply Hsame.
Qed.

End Sequences.

(** ** The mapping files *)

Lemma eng_is_not_thai : py "eng_to_thai.json" ≠ py "thai_to_eng.json".
Proof. vm_compute. discriminate. Qed.

Section Storage.

Variable json_load : list N → Exception + table.
Variable json_dump : table → list N.
Variable open_w_raises : str → option Exception.

Lemma load_mappings_parsed fs filename data mappings :
  fs !! filename = Some data → json_load data = inr mappings →
  load_mappings json_load json_dump open_w_raises fs filename
  = (mappings, fs, []).
Proof. intros Hf Hl. unfold load_mappings. now rewrite Hf, Hl. Qed.

(** X12: when the file of a table does not exist, [load_mappings] returns
    the built-in defaults (the two sample entries for the Thai-to-English
    file, nothing for any other file), also when the file cannot be
    created; the file is written with the dump of the defaults when it can
    be opened, and the files are left alone when it cannot. *)
Theorem missing_file_gives_defaults fs filename :
  fs !! filename = None →
  let r := load_mappings json_load json_dump open_w_raises fs filename in
  fst (fst r)
  = (if bool_decide (filename = py "thai_to_eng.json")
     then thai_to_eng_defaults else ∅)
  ∧ (open_w_raises filename = None →
     snd (fst r) = <[filename := json_dump (fst (fst r))]> fs)
  ∧ (is_Some (open_w_raises filename) → snd (fst r) = fs).
Proof.
  intros Hf r. subst r. unfold load_mappings. rewrite Hf.
  destruct (open_w_raises filename) as [e|]; cbn [fst snd]; repeat split.
  - discriminate.
  - now intros [x [=]].
Qed.

(** X13: [load_mappings] never changes a file that exists: the file it
    reads is left as it is, whether it parses or not, and so is every
    other file. *)
Theorem load_keeps_existing_files fs filename other data :
  fs !! other = Some data →
  snd (fst (load_mappings json_load json_dump open_w_raises fs filename))
    !! other
  = Some data.
Proof.
  intros Ho. unfold load_mappings.
  destruct (fs !! filename) as [d|] eqn:Hf.
  - now destruct (json_load d).
  - destruct (open_w_raises filename); [exact Ho|].
    cbn [fst snd]. rewrite lookup_insert_ne; [exact Ho|].
    intros ->. congruence.
Qed.

(** X14: loading is repeatable.  When [json.load] reads back what
    [json.dump] writes, loading a table a second time, from the files the
    first loading left, returns the same table and leaves those files as
    they are; and after a first loading that created the file, the second
    one logs nothing. *)
Theorem loading_twice fs filename :
  (∀ mappings, json_load (json_dump mappings) = inr mappings) →
  let first := load_mappings json_load json_dump open_w_raises fs filename in
  let second :=
    load_mappings json_load json_dump open_w_raises (snd (fst first))
      filename in
  fst second = fst first
  ∧ (fs !! filename = None → open_w_raises filename = None →
     second = (fst (fst first), snd (fst first), [])).
Proof.
  intros Hrt first second. subst first second. split.
  - unfold load_mappings at 2 3.
    destruct (fs !! filename) as [d|] eqn:Hf.
    + destruct (json_load d) eqn:Hd; cbn [fst snd].
      * unfold load_mappings. now rewrite Hf, Hd.
      * unfold load_mappings. now rewrite Hf, Hd.
    + destruct (open_w_raises filename) as [e|] eqn:Ho; cbn [fst snd].
      * unfold load_mappings. now rewrite Hf, Ho.
      * now rewrite (load_mappings_parsed _ _ _ _ (lookup_insert_eq _ _ _)
                       (Hrt _)).
  - intros Hf Ho. unfold load_mappings at 2 3 4. rewrite Hf, Ho.
    cbn [fst snd].
    now rewrite (load_mappings_parsed _ _ _ _ (lookup_insert_eq _ _ _)
                   (Hrt _)).
Qed.

(** X15: at a first start, when neither file exists, [__init__] gives the
    object with the two default entries in the Thai-to-English table, an
    empty English-to-Thai table, an empty buffer and no recent word, also
    when the files cannot be created.  When they can, and [json.load] reads
    back what [json.dump] writes, the next start finds the same object,
    changes no file and logs nothing. *)
Theorem first_start_and_restart fs :
  fs !! py "thai_to_eng.json" = None → fs !! py "eng_to_thai.json" = None →
  let first := SwitchLang_init json_load json_dump open_w_raises fs in
  fst (fst first) = started thai_to_eng_defaults ∅
  ∧ ((∀ mappings, json_load (json_dump mappings) = inr mappings) →
     open_w_raises (py "thai_to_eng.json") = None →
     open_w_raises (py "eng_to_thai.json") = None →
     SwitchLang_init json_load json_dump open_w_raises (snd (fst first))
     = (started thai_to_eng_defaults ∅, snd (fst first), [])).
Proof.
  intros HA HB first. subst first.
  assert (Hne := eng_is_not_thai).
  split.
  - unfold SwitchLang_init, load_mappings. rewrite HA.
    rewrite bool_decide_eq_true_2 by reflexivity.
    destruct (open_w_raises (py "thai_to_eng.json")); cbn [fst snd].
    + rewrite HB, (bool_decide_eq_false_2 _ Hne).
      now destruct (open_w_raises (py "eng_to_thai.json")).
    + rewrite lookup_insert_ne, HB, (bool_decide_eq_false_2 _ Hne)
        by (intros E; now apply Hne).
      now destruct (open_w_raises (py "eng_to_thai.json")).
  - intros Hrt OA OB.
    unfold SwitchLang_init at 2 3. unfold load_mappings.
    rewrite HA, OA, bool_decide_eq_true_2 by reflexivity.
    rewrite lookup_insert_ne, HB, OB, (bool_decide_eq_false_2 _ Hne)
      by (intros E; now apply Hne).
    cbn [fst snd]. unfold SwitchLang_init.
    rewrite (load_mappings_parsed _ _ (json_dump thai_to_eng_defaults)
               thai_to_eng_defaults);
      [|rewrite lookup_insert_ne by exact Hne; apply lookup_insert_eq
       |apply Hrt].
    now rewrite (load_mappings_parsed _ _ (json_dump ∅) ∅
                   (lookup_insert_eq _ _ _) (Hrt _)).
Qed.

(** What is saved is loaded back. *)
Lemma load_after_save fs s :
  (∀ mappings, json_load (json_dump mappings) = inr mappings) →
  open_w_raises (py "thai_to_eng.json") = None →
  open_w_raises (py "eng_to_thai.json") = None →
  snd (save_mappings json_dump open_w_raises fs s)
  = [log_info (py "Mappings saved successfully")]
  ∧ load_mappings json_load json_dump open_w_raises
      (fst (save_mappings json_dump open_w_raises fs s))
      (py "thai_to_eng.json")
    = (thai_to_eng_mappings s,
       fst (save_mappings json_dump open_w_raises fs s), [])
  ∧ load_mappings json_load json_dump open_w_raises
      (fst (save_mappings json_dump open_w_raises fs s))
      (py "eng_to_thai.json")
    = (eng_to_thai_mappings s,
       fst (save_mappings json_dump open_w_raises fs s), []).
Proof.
  intros Hrt OA OB. assert (Hne := eng_is_not_thai).
  unfold save_mappings. rewrite OA, OB. cbn [fst snd].
  split; [reflexivity|]. split.
  - apply (load_mappings_parsed _ _ (json_dump (thai_to_eng_mappings s)));
      [|apply Hrt].
    rewrite lookup_insert_ne by exact Hne. apply lookup_insert_eq.
  - apply (load_mappings_parsed _ _ (json_dump (eng_to_thai_mappings s)));
      [apply lookup_insert_eq|apply Hrt].
Qed.

(** X16: saving and loading are inverse.  When both files can be opened
    and [json.load] reads back what [json.dump] writes, then after
    [save_mappings] (run in the directory of the script) each table is
    loaded back as it was in memory, without a log line, and a new start
    gives an object with the two tables that were saved. *)
Theorem save_then_load fs s :
  (∀ mappings, json_load (json_dump mappings) = inr mappings) →
  open_w_raises (py "thai_to_eng.json") = None →
  open_w_raises (py "eng_to_thai.json") = None →
  let saved := save_mappings json_dump open_w_raises fs s in
  snd saved = [log_info (py "Mappings saved successfully")]
  ∧ load_mappings json_load json_dump open_w_raises (fst saved)
      (py "thai_to_eng.json")
    = (thai_to_eng_mappings s, fst saved, [])
  ∧ load_mappings json_load json_dump open_w_raises (fst saved)
      (py "eng_to_thai.json")
    = (eng_to_thai_mappings s, fst saved, [])
  ∧ SwitchLang_init json_load json_dump open_w_raises (fst saved)
    = (started (thai_to_eng_mappings s) (eng_to_thai_mappings s),
       fst saved, []).
Proof.
  intros Hrt OA OB saved. subst saved.
  destruct (load_after_save fs s Hrt OA OB) as (Hlog & LA & LB).
  split; [exact Hlog|]. split; [exact LA|]. split; [exact LB|].
  unfold SwitchLang_init. now rewrite LA, LB.
Qed.

(** X17: [save_mappings] writes no file but the two mapping files: every
    other file is as before, whether the saving succeeds or not. *)
Theorem save_touches_only_the_two_files fs s other :
  other ≠ py "thai_to_eng.json" → other ≠ py "eng_to_thai.json" →
  fst (save_mappings json_dump open_w_raises fs s) !! other = fs !! other.
Proof.
  intros HA HB. unfold save_mappings.
  destruct (open_w_raises (py "thai_to_eng.json")); [reflexivity|].
  destruct (open_w_raises (py "eng_to_thai.json")); cbn [fst snd].
  - now rewrite lookup_insert_ne.
  - now rewrite !lookup_insert_ne.
Qed.


End Storage.

(** ** The tray menu *)

Section Tray.

Variable key_to_char : N → bool → option str.
Variable json_load : list N → Exception + table.
Variable json_dump : table → list N.
Variable open_w_raises : str → option Exception.

Lemma dialog_object fs s :
  fst (fst (show_add_mapping_dialog json_dump open_w_raises fs s))
  = with_thai_to_eng_mappings
      (<[py "vbiyd" := py "สบาย"]> (thai_to_eng_mappings s)) s.
Proof.
  unfold show_add_mapping_dialog.
  now destruct (save_mappings _ _ _ _) as [fs1 calls].
Qed.

(** X19: the menu entry that adds a mapping puts the entry for [vbiyd] in
    the Thai-to-English table in memory, over an older entry for that key
    if there is one, whether the files can be saved or not.  Every other
    entry, the other table, the buffer and the recent words are as before;
    and from then on, [vbiyd] typed and followed by a space (handler
    running, nothing but white space in the buffer) is corrected to the new
    entry. *)
Theorem added_mapping_is_used fs s :
  let s1 := fst (fst (show_add_mapping_dialog json_dump open_w_raises fs s)) in
  thai_to_eng_mappings s1 !! py "vbiyd" = Some (py "สบาย")
  ∧ (∀ k, k ≠ py "vbiyd" →
       thai_to_eng_mappings s1 !! k = thai_to_eng_mappings s !! k)
  ∧ eng_to_thai_mappings s1 = eng_to_thai_mappings s
  ∧ buffer s1 = buffer s
  ∧ recent_words s1 = recent_words s
  ∧ is_running s1 = is_running s
  ∧ (is_running s = true → strip (buffer s) = [] →
     on_key_events key_to_char (typing (py "vbiyd") ++ [space_key]) s1
     = (tt, with_buffer (py " ") s1,
        correction_calls (py "vbiyd") (py "สบาย"))).
Proof.
  intros s1. subst s1. rewrite dialog_object.
  cbn [thai_to_eng_mappings eng_to_thai_mappings buffer recent_words
       is_running with_thai_to_eng_mappings].
  split; [apply lookup_insert_eq|].
  split; [intros k Hk; now apply lookup_insert_ne|].
  repeat (split; [reflexivity|]).
  intros Hr Hb.
  rewrite typed_word_run by (exact Hr || discriminate).
  rewrite (check_thai _ (py "vbiyd") (py "สบาย")); [reflexivity| | |].
  - cbn [buffer with_buffer with_thai_to_eng_mappings].
    now rewrite strip_app_blank.
  - discriminate.
  - apply lookup_insert_eq.
Qed.

(** X20: the added mapping is saved.  When both files can be opened and
    [json.load] reads back what [json.dump] writes, the Thai-to-English
    table loaded after the menu entry was used is the table of before with
    the entry for [vbiyd], and the English-to-Thai table is loaded as it
    was; the menu entry logs its request and the success of the saving. *)
Theorem added_mapping_is_saved fs s :
  (∀ mappings, json_load (json_dump mappings) = inr mappings) →
  open_w_raises (py "thai_to_eng.json") = None →
  open_w_raises (py "eng_to_thai.json") = None →
  let r := show_add_mapping_dialog json_dump open_w_raises fs s in
  fst (fst (load_mappings json_load json_dump open_w_raises (snd (fst r))
              (py "thai_to_eng.json")))
  = <[py "vbiyd" := py "สบาย"]> (thai_to_eng_mappings s)
  ∧ fst (fst (load_mappings json_load json_dump open_w_raises (snd (fst r))
                (py "eng_to_thai.json")))
    = eng_to_thai_mappings s
  ∧ snd r = [log_info (py "Add mapping dialog requested (placeholder)");
             log_info (py "Mappings saved successfully")].
Proof.
  intros Hrt OA OB r. subst r. unfold show_add_mapping_dialog.
  destruct (load_after_save json_load json_dump open_w_raises fs
              (with_thai_to_eng_mappings
                 (<[py "vbiyd" := py "สบาย"]> (thai_to_eng_mappings s)) s)
              Hrt OA OB) as (Hlog & LA & LB).
  destruct (save_mappings _ _ _ _) as [fs1 calls].
  cbn [fst snd] in *. rewrite LA, LB, Hlog. easy.
Qed.

(** X21: the Exit entry stops the corrector for good.  [exit_app] clears
    [is_running], stops the tray icon and logs the shutdown, leaving the
    buffer, the tables and the recent words alone; every key event handled
    afterwards changes nothing and makes no call. *)
Theorem exit_app_stops_the_handler s events :
  exit_app s
  = (tt, with_is_running false s,
     [tray_icon_stop; log_info (py "Application shutting down")])
  ∧ on_key_events key_to_char events (state_of (exit_app s))
    = (tt, state_of (exit_app s), []).
Proof.
  split; [reflexivity|].
  induction events as [|e events IH]; [reflexivity|].
  cbn [on_key_events]. unfold mbind, M_bind.
  rewrite on_key_event_stopped by reflexivity. now rewrite IH.
Qed.

End Tray.

(** ** The further properties on concrete runs *)

Lemma codec_round_trip mappings : codec_load (codec_dump mappings) = inr mappings.
Proof. unfold codec_load, codec_dump. now rewrite decode_encode. Defined.

(** X3 on the garbled greeting: the space key makes calls, and they are
    those of the correction. *)
Lemma calls_are_one_correction_witness :
  calls_of (on_key_event no_key_to_char space_key typed_sawasdee) ≠ []
  ∧ is_running typed_sawasdee = true
  ∧ name space_key = py "space"
  ∧ strip (buffer typed_sawasdee) ≠ [].
Proof.
  assert (H : calls_of (on_key_event no_key_to_char space_key typed_sawasdee)
              ≠ []) by (vm_compute; discriminate).
  split; [exact H|].
  destruct (calls_are_one_correction no_key_to_char space_key typed_sawasdee H)
    as (Hr & _ & Hn & Hw & _).
  split; [exact Hr|]. split; [exact Hn|exact Hw].
Defined.

(** X4 on the shift key. *)
Lemma modifier_keys_are_ignored_witness :
  name (key_down (py "shift")) ∈ modifiers
  ∧ on_key_event no_key_to_char (key_down (py "shift")) typed_abc
    = (tt, typed_abc, []).
Proof.
  assert (H : name (key_down (py "shift")) ∈ modifiers)
    by (apply elem_of_cons; left; reflexivity).
  split; [exact H|].
  exact (modifier_keys_are_ignored no_key_to_char _ typed_abc H).
Defined.

(** X6 on [abc]. *)
Lemma backspace_undoes_typing_witness :
  is_running fresh = true
  ∧ on_key_events no_key_to_char
      (typing (py "abc") ++ replicate (length (py "abc")) backspace_key) fresh
    = (tt, fresh, []).
Proof.
  split; [reflexivity|].
  exact (backspace_undoes_typing no_key_to_char (py "abc") fresh eq_refl).
Defined.


(** X8: the buffer holds [abc], then enter, the garbled greeting and a
    space. *)
Lemma word_after_enter_is_corrected_witness :
  (is_running typed_abc = true ∧ py "l;ylfu8iy[" ≠ []
   ∧ strip (py "l;ylfu8iy[") = py "l;ylfu8iy["
   ∧ thai_to_eng_mappings typed_abc !! py "l;ylfu8iy["
     = Some (py "สวัสดีครับ"))
  ∧ calls_of (on_key_events no_key_to_char
                (enter_key :: typing (py "l;ylfu8iy[") ++ [space_key])
                typed_abc)
    = replicate (len (py "l;ylfu8iy[") + 1) (press_and_release (py "backspace"))
      ++ [write (py "สวัสดีครับ" ++ py " ");
          log_info (corrected_msg (py "l;ylfu8iy[") (py "สวัสดีครับ"))].
Proof.
  assert (Hne : py "l;ylfu8iy[" ≠ []) by discriminate.
  split; [repeat split; try reflexivity; exact Hne|].
  now rewrite (word_after_enter_is_corrected no_key_to_char typed_abc
                 (py "l;ylfu8iy[") (py "สวัสดีครับ") eq_refl Hne eq_refl eq_refl).
Defined.

(** X9 on the two default entries. *)
Lemma two_words_are_corrected_in_turn_witness :
  (is_running fresh = true ∧ strip (buffer fresh) = []
   ∧ thai_to_eng_mappings fresh !! py "wxwso,k" = Some (py "ไปไหนมา")
   ∧ thai_to_eng_mappings fresh !! py "l;ylfu8iy[" = Some (py "สวัสดีครับ"))
  ∧ on_key_events no_key_to_char
      ((typing (py "wxwso,k") ++ [space_key])
       ++ (typing (py "l;ylfu8iy[") ++ [space_key])) fresh
    = (tt, with_buffer (py " ") fresh,
       correction_calls (py "wxwso,k") (py "ไปไหนมา")
       ++ correction_calls (py "l;ylfu8iy[") (py "สวัสดีครับ")).
Proof.
  assert (N1 : py "wxwso,k" ≠ []) by discriminate.
  assert (N2 : py "l;ylfu8iy[" ≠ []) by discriminate.
  split; [repeat split; reflexivity|].
  exact (two_words_are_corrected_in_turn no_key_to_char fresh
           (py "wxwso,k") (py "ไปไหนมา") (py "l;ylfu8iy[") (py "สวัสดีครับ")
           eq_refl eq_refl N1 eq_refl eq_refl N2 eq_refl eq_refl).
Defined.

(** X10: [hello], a space, the garbled greeting and a space: the greeting is
    a key, and yet nothing is corrected. *)
Lemma unmatched_word_stays_in_the_buffer_witness :
  (is_running fresh = true ∧ strip (buffer fresh) = []
   ∧ thai_to_eng_mappings fresh !! py "hello" = None
   ∧ eng_to_thai_mappings fresh !! py "hello" = None
   ∧ thai_to_eng_mappings fresh !! py "l;ylfu8iy[" = Some (py "สวัสดีครับ")
   ∧ thai_to_eng_mappings fresh !! (py "hello" ++ py " " ++ py "l;ylfu8iy[")
     = None
   ∧ eng_to_thai_mappings fresh !! (py "hello" ++ py " " ++ py "l;ylfu8iy[")
     = None)
  ∧ calls_of (on_key_events no_key_to_char
                ((typing (py "hello") ++ [space_key])
                 ++ (typing (py "l;ylfu8iy[") ++ [space_key])) fresh)
    = [].
Proof.
  assert (N1 : py "hello" ≠ []) by discriminate.
  assert (N2 : py "l;ylfu8iy[" ≠ []) by discriminate.
  split; [repeat split; reflexivity|].
  now rewrite (unmatched_word_stays_in_the_buffer no_key_to_char fresh
                 (py "hello") (py "l;ylfu8iy[")
                 eq_refl eq_refl N1 eq_refl eq_refl eq_refl
                 N2 eq_refl eq_refl eq_refl).
Defined.

(** X11 at a first start, after [hello] and a space. *)
Lemma recent_words_are_unmatched_words_witness :
  Forall (recordable fresh) (recent_words fresh)
  ∧ Forall (recordable fresh)
      (recent_words
         (state_of (on_key_events no_key_to_char
                      (typing (py "hello") ++ [space_key]) fresh))).
Proof.
  assert (H : Forall (recordable fresh) (recent_words fresh))
    by apply Forall_nil_2.
  split; [exact H|].
  exact (recent_words_are_unmatched_words no_key_to_char
           (typing (py "hello") ++ [space_key]) fresh H).
Defined.

(** X12 in an empty directory. *)
Lemma missing_file_gives_defaults_witness :
  (∅ : FileSystem) !! py "thai_to_eng.json" = None
  ∧ fst (fst (load_mappings codec_load codec_dump sample_open_w ∅
                (py "thai_to_eng.json")))
    = (if bool_decide (py "thai_to_eng.json" = py "thai_to_eng.json")
       then thai_to_eng_defaults else ∅).
Proof.
  assert (H : (∅ : FileSystem) !! py "thai_to_eng.json" = None)
    by apply lookup_empty.
  split; [exact H|].
  exact (proj1 (missing_file_gives_defaults codec_load codec_dump
                  sample_open_w ∅ (py "thai_to_eng.json") H)).
Defined.

(** X13 on the file that is cut short. *)
Lemma load_keeps_existing_files_witness :
  broken_files !! py "thai_to_eng.json" = Some (py "{ l;ylfu8iy[: ")
  ∧ snd (fst (load_mappings sample_json_load sample_json_dump sample_open_w
                broken_files (py "thai_to_eng.json")))
      !! py "thai_to_eng.json"
    = Some (py "{ l;ylfu8iy[: ").
Proof.
  assert (H : broken_files !! py "thai_to_eng.json"
              = Some (py "{ l;ylfu8iy[: ")) by reflexivity.
  split; [exact H|].
  exact (load_keeps_existing_files sample_json_load sample_json_dump
           sample_open_w broken_files (py "thai_to_eng.json")
           (py "thai_to_eng.json") (py "{ l;ylfu8iy[: ") H).
Defined.

(** X14 in an empty directory. *)
Lemma loading_twice_witness :
  (∀ mappings, codec_load (codec_dump mappings) = inr mappings)
  ∧ fst (load_mappings codec_load codec_dump sample_open_w
           (snd (fst (load_mappings codec_load codec_dump sample_open_w ∅
                        (py "thai_to_eng.json"))))
           (py "thai_to_eng.json"))
    = fst (load_mappings codec_load codec_dump sample_open_w ∅
             (py "thai_to_eng.json")).
Proof.
  split; [exact codec_round_trip|].
  exact (proj1 (loading_twice codec_load codec_dump sample_open_w ∅
                  (py "thai_to_eng.json") codec_round_trip)).
Defined.

(** X15 in an empty directory. *)
Lemma first_start_and_restart_witness :
  ((∅ : FileSystem) !! py "thai_to_eng.json" = None
   ∧ (∅ : FileSystem) !! py "eng_to_thai.json" = None)
  ∧ fst (fst (SwitchLang_init codec_load codec_dump sample_open_w ∅))
    = started thai_to_eng_defaults ∅
  ∧ SwitchLang_init codec_load codec_dump sample_open_w
      (snd (fst (SwitchLang_init codec_load codec_dump sample_open_w ∅)))
    = (started thai_to_eng_defaults ∅,
       snd (fst (SwitchLang_init codec_load codec_dump sample_open_w ∅)),
       []).
Proof.
  assert (HA : (∅ : FileSystem) !! py "thai_to_eng.json" = None)
    by apply lookup_empty.
  assert (HB : (∅ : FileSystem) !! py "eng_to_thai.json" = None)
    by apply lookup_empty.
  split; [split; assumption|].
  destruct (first_start_and_restart codec_load codec_dump sample_open_w ∅
              HA HB) as [Hfirst Hnext].
  split; [exact Hfirst|].
  exact (Hnext codec_round_trip eq_refl eq_refl).
Defined.

(** X16: the tables of a first start, saved in an empty directory. *)
Lemma save_then_load_witness :
  ((∀ mappings, codec_load (codec_dump mappings) = inr mappings)
   ∧ sample_open_w (py "thai_to_eng.json") = None
   ∧ sample_open_w (py "eng_to_thai.json") = None)
  ∧ load_mappings codec_load codec_dump sample_open_w
      (fst (save_mappings codec_dump sample_open_w ∅ fresh))
      (py "thai_to_eng.json")
    = (thai_to_eng_mappings fresh,
       fst (save_mappings codec_dump sample_open_w ∅ fresh), []).
Proof.
  split; [split; [exact codec_round_trip|split; reflexivity]|].
  destruct (save_then_load codec_load codec_dump sample_open_w ∅ fresh
              codec_round_trip eq_refl eq_refl) as (_ & Hthai & _).
  exact Hthai.
Defined.

(** X17 with a file of notes in the directory. *)
Lemma save_touches_only_the_two_files_witness :
  (py "notes.txt" ≠ py "thai_to_eng.json"
   ∧ py "notes.txt" ≠ py "eng_to_thai.json")
  ∧ fst (save_mappings codec_dump sample_open_w
           (<[py "notes.txt" := py "abc"]> ∅) fresh) !! py "notes.txt"
    = (<[py "notes.txt" := py "abc"]> ∅ : FileSystem) !! py "notes.txt".
Proof.
  assert (HA : py "notes.txt" ≠ py "thai_to_eng.json")
    by (vm_compute; discriminate).
  assert (HB : py "notes.txt" ≠ py "eng_to_thai.json")
    by (vm_compute; discriminate).
  split; [split; assumption|].
  exact (save_touches_only_the_two_files codec_dump sample_open_w
           (<[py "notes.txt" := py "abc"]> ∅) fresh (py "notes.txt") HA HB).
Defined.


(** X20 at a first start, in an empty directory. *)
Lemma added_mapping_is_saved_witness :
  ((∀ mappings, codec_load (codec_dump mappings) = inr mappings)
   ∧ sample_open_w (py "thai_to_eng.json") = None
   ∧ sample_open_w (py "eng_to_thai.json") = None)
  ∧ fst (fst (load_mappings codec_load codec_dump sample_open_w
                (snd (fst (show_add_mapping_dialog codec_dump sample_open_w
                             ∅ fresh)))
                (py "thai_to_eng.json")))
    = <[py "vbiyd" := py "สบาย"]> (thai_to_eng_mappings fresh).
Proof.
  split; [split; [exact codec_round_trip|split; reflexivity]|].
  exact (proj1 (added_mapping_is_saved codec_load codec_dump sample_open_w
                  ∅ fresh codec_round_trip eq_refl eq_refl)).
Defined.
